(** * NativeThemeAndroid: the fallback widget theme renderer

    A shallow embedding of [ui/base/native_theme/native_theme_android.cc]
    and the properties its specification states about it.

    - C++ [int] values are integers of [Z]; the renderer only adds small
      constants to rectangle coordinates, and signed overflow is undefined
      behaviour in C++, so no wrap-around is modelled.  Integer division is
      C++ division, which truncates towards zero ([Z.quot]).
    - The scalar types [SkScalar] (Skia's typedef of [float]) and [double]
      are carriers of an interface of arithmetic operations, so that every
      statement proved for all carriers is independent of how the arithmetic
      rounds.  The rationals are the exact instance; IEEE 754 single and
      double precision are the instance of the C++ program.
    - A paint routine is the list of calls it issues on the canvas, in the
      order it issues them. *)

From Stdlib Require Import ZArith QArith Qabs Qminmax List Bool Lia Lqa.
From Corelib Require Import SpecFloat.
Import ListNotations.

Local Open Scope Z_scope.

(** ** Scalar arithmetic *)

(** The operations the renderer uses on a scalar type. [sc_lit q] is the
    scalar a literal or an integer of value [q] converts to, [sc_ltb] is the
    C++ [<], and [sc_trunc] is [static_cast<int>]. *)
Class ScalarOps (T : Type) : Type := {
  sc_lit : Q -> T;
  sc_add : T -> T -> T;
  sc_sub : T -> T -> T;
  sc_mul : T -> T -> T;
  sc_div : T -> T -> T;
  sc_opp : T -> T;
  sc_abs : T -> T;
  sc_ltb : T -> T -> bool;
  sc_trunc : T -> Z
}.

(** The implicit conversions between [SkScalar] and [double]. *)
Class Conversion (F D : Type) : Type := {
  to_double : F -> D;
  of_double : D -> F
}.

Declare Scope sc_scope.
Delimit Scope sc_scope with sc.
Infix "+" := sc_add : sc_scope.
Infix "-" := sc_sub : sc_scope.
Infix "*" := sc_mul : sc_scope.
Infix "/" := sc_div : sc_scope.
Notation "- x" := (sc_opp x) : sc_scope.
Infix "<?" := sc_ltb : sc_scope.
Notation "x >? y" := (sc_ltb y x) (only parsing) : sc_scope.

(** What the comparison of a scalar type must satisfy for the two clamps of
    [OutlineColor] to be clamps: [<] is irreflexive and the literal bounds
    0.28 and 0.5 are in order. IEEE arithmetic and exact arithmetic both
    satisfy it. *)
Class ScalarOrder (T : Type) {ops : ScalarOps T} : Prop := {
  sc_ltb_irrefl : forall x : T, (x <? x)%sc = false;
  sc_bounds_ordered : (sc_lit 0.5 <? sc_lit 0.28)%sc = false
}.

(** What the comparison must satisfy besides for the sign of an adjustment
    and the unit interval to be read: the negation of a positive number is
    negative, a positive number is not negative, and the literal bounds 0.0
    and 1.0 are in order. IEEE arithmetic satisfies it, numbers that are not
    a number included, and so does exact arithmetic. *)
Class ScalarSign (T : Type) {ops : ScalarOps T} : Prop := {
  sc_opp_negative :
    forall x : T, (sc_lit 0 <? x)%sc = true -> (- x <? sc_lit 0)%sc = true;
  sc_positive_not_negative :
    forall x : T, (sc_lit 0 <? x)%sc = true -> (x <? sc_lit 0)%sc = false;
  sc_unit_ordered : (sc_lit 1.0 <? sc_lit 0.0)%sc = false
}.

(** [static_cast<int>] of an exact rational: truncation towards zero. *)
Definition Qtrunc (q : Q) : Z := Z.quot (Qnum q) (Z.pos (Qden q)).

(** [<] on the rationals. *)
Definition Qltb (a b : Q) : bool := negb (Qle_bool b a).

(** Exact arithmetic: the rationals as a scalar type. *)
#[export] Instance Q_ops : ScalarOps Q := {
  sc_lit := fun q => q;
  sc_add := Qplus;
  sc_sub := Qminus;
  sc_mul := Qmult;
  sc_div := Qdiv;
  sc_opp := Qopp;
  sc_abs := Qabs;
  sc_ltb := Qltb;
  sc_trunc := Qtrunc
}.

#[export] Instance Q_conversion : Conversion Q Q := {
  to_double := fun q => q;
  of_double := fun q => q
}.

(** IEEE 754 arithmetic in a format of precision [prec] and maximal exponent
    [emax], rounding to nearest even: the conversion of an integer, of a
    literal, and of a number of another format. *)
Section Binary.

Variables prec emax : Z.

Definition SF_of_Z (n : Z) : spec_float := binary_normalize prec emax n 0 false.

Definition SF_of_Q (q : Q) : spec_float :=
  SFdiv prec emax (SF_of_Z (Qnum q)) (SF_of_Z (Z.pos (Qden q))).

Definition SF_round (x : spec_float) : spec_float :=
  match x with
  | S754_finite s m e => binary_normalize prec emax (cond_Zopp s (Z.pos m)) e s
  | _ => x
  end.

End Binary.

(** [static_cast<int>] of a finite number: truncation towards zero. *)
Definition SF_trunc (x : spec_float) : Z :=
  match x with
  | S754_finite s m e =>
      cond_Zopp s (if 0 <=? e then Z.pos m * 2 ^ e else Z.pos m / 2 ^ (- e))
  | _ => 0
  end.

(** [float] and [double]. A literal of the program is a [double] literal, so
    a [float] literal is the [double] one converted. *)
Record float32 : Type := F32 { f32 : spec_float }.
Record float64 : Type := F64 { f64 : spec_float }.

#[export] Instance float32_ops : ScalarOps float32 := {
  sc_lit := fun q => F32 (SF_round 24 128 (SF_of_Q 53 1024 q));
  sc_add := fun a b => F32 (SFadd 24 128 (f32 a) (f32 b));
  sc_sub := fun a b => F32 (SFsub 24 128 (f32 a) (f32 b));
  sc_mul := fun a b => F32 (SFmul 24 128 (f32 a) (f32 b));
  sc_div := fun a b => F32 (SFdiv 24 128 (f32 a) (f32 b));
  sc_opp := fun a => F32 (SFopp (f32 a));
  sc_abs := fun a => F32 (SFabs (f32 a));
  sc_ltb := fun a b => SFltb (f32 a) (f32 b);
  sc_trunc := fun a => SF_trunc (f32 a)
}.

#[export] Instance float64_ops : ScalarOps float64 := {
  sc_lit := fun q => F64 (SF_of_Q 53 1024 q);
  sc_add := fun a b => F64 (SFadd 53 1024 (f64 a) (f64 b));
  sc_sub := fun a b => F64 (SFsub 53 1024 (f64 a) (f64 b));
  sc_mul := fun a b => F64 (SFmul 53 1024 (f64 a) (f64 b));
  sc_div := fun a b => F64 (SFdiv 53 1024 (f64 a) (f64 b));
  sc_opp := fun a => F64 (SFopp (f64 a));
  sc_abs := fun a => F64 (SFabs (f64 a));
  sc_ltb := fun a b => SFltb (f64 a) (f64 b);
  sc_trunc := fun a => SF_trunc (f64 a)
}.

#[export] Instance float_conversion : Conversion float32 float64 := {
  to_double := fun a => F64 (SF_round 53 1024 (f32 a));
  of_double := fun d => F32 (SF_round 24 128 (f64 d))
}.

(** ** Colours *)

(** Modelled from the spec: a colour is a packed ARGB value. Skia's header
    with [SkColorSetARGB], [SkColorGetA] and the named colours is not part of
    the sources; they are the usual packing of four 8-bit channels. *)
Definition SkColor := Z.
Definition SkAlpha := Z.

Definition SkColorSetARGB (a r g b : Z) : SkColor :=
  Z.lor (Z.lor (Z.lor (Z.shiftl a 24) (Z.shiftl r 16)) (Z.shiftl g 8)) b.
Definition SkColorSetRGB (r g b : Z) : SkColor := SkColorSetARGB 0xFF r g b.
Definition SkColorGetA (c : SkColor) : SkAlpha := Z.land (Z.shiftr c 24) 0xFF.
Definition SK_ColorBLACK : SkColor := 0xFF000000.
Definition SK_ColorWHITE : SkColor := 0xFFFFFFFF.

(** [SkScalar hsv[3]]: hue, saturation and value are the entries 0, 1, 2. *)
Record HSV (T : Type) : Type := mkHSV { hsv_0 : T; hsv_1 : T; hsv_2 : T }.
Arguments mkHSV {T}.
Arguments hsv_0 {T}.
Arguments hsv_1 {T}.
Arguments hsv_2 {T}.

(** [color_utils::HSL]: three [double] fields. *)
Record HSL (D : Type) : Type := mkHSL { hsl_h : D; hsl_s : D; hsl_l : D }.
Arguments mkHSL {D}.
Arguments hsl_h {D}.
Arguments hsl_s {D}.
Arguments hsl_l {D}.

(** ** Geometry *)

Record Size : Type := mkSize { size_width : Z; size_height : Z }.

(** [gfx::Rect]: origin and size; [gfx::Rect] keeps width and height
    non-negative. *)
Record Rect : Type := mkRect {
  rect_x : Z; rect_y : Z; rect_width : Z; rect_height : Z
}.

Definition rect_right (r : Rect) : Z := rect_x r + rect_width r.
Definition rect_bottom (r : Rect) : Z := rect_y r + rect_height r.
Definition set_height (h : Z) (r : Rect) : Rect :=
  mkRect (rect_x r) (rect_y r) (rect_width r) h.
Definition set_y (y : Z) (r : Rect) : Rect :=
  mkRect (rect_x r) y (rect_width r) (rect_height r).

(** ** Parts, states and extra parameters *)

(** Modelled from the spec: the [Part] and [State] enumerations of
    [NativeTheme], whose header is not part of the sources. The [default:]
    branches of the switches over [Part] are unreachable on this type. *)
Inductive Part : Type :=
  | kScrollbarUpArrow | kScrollbarDownArrow
  | kScrollbarLeftArrow | kScrollbarRightArrow
  | kCheckbox | kRadio | kPushButton | kTextField | kMenuList
  | kSliderTrack | kSliderThumb | kInnerSpinButton | kProgressBar.

Inductive State : Type := kDisabled | kNormal | kHovered | kPressed.

Definition State_eqb (a b : State) : bool :=
  match a, b with
  | kDisabled, kDisabled | kNormal, kNormal
  | kHovered, kHovered | kPressed, kPressed => true
  | _, _ => false
  end.

Record ButtonExtraParams : Type := mkButton {
  button_background_color : SkColor;
  has_border : bool;
  checked : bool;
  indeterminate : bool
}.

Record TextFieldExtraParams : Type := mkTextField {
  text_background_color : SkColor;
  is_text_area : bool;
  is_listbox : bool
}.

Record MenuListExtraParams : Type := mkMenuList {
  menu_has_border : bool;
  has_border_radius : bool;
  menu_background_color : SkColor;
  arrow_x : Z;
  arrow_y : Z
}.

Record SliderExtraParams : Type := mkSlider { vertical : bool; in_drag : bool }.

Record InnerSpinButtonExtraParams : Type := mkInnerSpin {
  read_only : bool;
  spin_up : bool
}.

Record ProgressBarExtraParams : Type := mkProgressBar {
  value_rect_x : Z;
  value_rect_y : Z;
  value_rect_width : Z;
  value_rect_height : Z
}.

(** Modelled from the spec: [ExtraParams] is a C++ union; the member read by
    [Paint] must be the one the caller filled in, which the tag records. *)
Inductive ExtraParams : Type :=
  | extra_button (button : ButtonExtraParams)
  | extra_text_field (text_field : TextFieldExtraParams)
  | extra_menu_list (menu_list : MenuListExtraParams)
  | extra_slider (slider : SliderExtraParams)
  | extra_inner_spin (inner_spin : InnerSpinButtonExtraParams)
  | extra_progress_bar (progress_bar : ProgressBarExtraParams).

(** The image resources the renderer looks up in the resource bundle. *)
Inductive ResourceId : Type :=
  | IDR_CHECKBOX_DISABLED_INDETERMINATE | IDR_CHECKBOX_INDETERMINATE
  | IDR_CHECKBOX_DISABLED_ON | IDR_CHECKBOX_ON
  | IDR_CHECKBOX_DISABLED_OFF | IDR_CHECKBOX_OFF
  | IDR_RADIO_DISABLED_ON | IDR_RADIO_DISABLED_OFF
  | IDR_RADIO_ON | IDR_RADIO_OFF
  | IDR_PROGRESS_BAR | IDR_PROGRESS_BORDER_LEFT | IDR_PROGRESS_BORDER_RIGHT
  | IDR_PROGRESS_VALUE.

(** ** The drawing surface *)

Inductive Style : Type := kFill_Style | kStroke_Style.

(** A two-stop linear gradient, as [SkGradientShader::CreateLinear] receives
    it: the two points of [gradient_bounds] and the two [colors]. *)
Record Gradient (T : Type) : Type := mkGradient {
  gradient_bounds_0 : T * T;
  gradient_bounds_1 : T * T;
  colors_0 : SkColor;
  colors_1 : SkColor
}.
Arguments mkGradient {T}.

(** [SkPaint]: the fields the renderer sets. *)
Record SkPaint (T : Type) : Type := mkPaint {
  paint_color : SkColor;
  paint_style : Style;
  paint_anti_alias : bool;
  paint_shader : option (Gradient T)
}.
Arguments mkPaint {T}.
Arguments paint_color {T}.
Arguments paint_style {T}.
Arguments paint_anti_alias {T}.
Arguments paint_shader {T}.

(** A freshly constructed [SkPaint]: opaque black, filling, no anti-aliasing,
    no shader. *)
Definition SkPaint_new {T : Type} : SkPaint T :=
  mkPaint SK_ColorBLACK kFill_Style false None.

Definition setColor {T} (c : SkColor) (p : SkPaint T) : SkPaint T :=
  mkPaint c (paint_style p) (paint_anti_alias p) (paint_shader p).
Definition setARGB {T} (a r g b : Z) (p : SkPaint T) : SkPaint T :=
  setColor (SkColorSetARGB a r g b) p.
Definition setStyle {T} (s : Style) (p : SkPaint T) : SkPaint T :=
  mkPaint (paint_color p) s (paint_anti_alias p) (paint_shader p).
Definition setAntiAlias {T} (aa : bool) (p : SkPaint T) : SkPaint T :=
  mkPaint (paint_color p) (paint_style p) aa (paint_shader p).
Definition setShader {T} (sh : option (Gradient T)) (p : SkPaint T) : SkPaint T :=
  mkPaint (paint_color p) (paint_style p) (paint_anti_alias p) sh.

(** The verbs of an [SkPath]. *)
Inductive PathVerb (T : Type) : Type :=
  | moveTo (x y : T)
  | lineTo (x y : T)
  | rLineTo (dx dy : T)
  | close.
Arguments moveTo {T}.
Arguments lineTo {T}.
Arguments rLineTo {T}.
Arguments close {T}.

(** The calls a paint routine issues: the [SkCanvas] drawing calls, the two
    [gfx::Canvas] image calls, and the construction of a gradient shader. *)
Inductive DrawCall (T : Type) : Type :=
  | drawIRect (left top right bottom : Z) (paint : SkPaint T)
  | drawRect (left top right bottom : T) (paint : SkPaint T)
  | drawPath (path : list (PathVerb T)) (paint : SkPaint T)
  | drawLine (x0 y0 x1 y1 : T) (paint : SkPaint T)
  | drawPoint (x y : T) (paint : SkPaint T)
  | CanvasDrawImageInt (image : ResourceId) (src_x src_y src_w src_h : Z)
      (dest_x dest_y dest_w dest_h : Z) (filter : bool)
  | CanvasTileImageInt (image : ResourceId) (src_x src_y : Z)
      (tile_scale_x tile_scale_y : T) (dest_x dest_y w h : Z)
  | CreateLinear (shader : Gradient T).
Arguments drawIRect {T}.
Arguments drawRect {T}.
Arguments drawPath {T}.
Arguments drawLine {T}.
Arguments drawPoint {T}.
Arguments CanvasDrawImageInt {T}.
Arguments CanvasTileImageInt {T}.
Arguments CreateLinear {T}.

(** What the renderer takes from the toolkit around it: Skia's colour-space
    conversions, [color_utils]' HSL conversions, the size of each image of
    the resource bundle, and [gfx::Rect::Center]. None of them is part of the
    sources; every statement below holds for all of them. *)
Class Toolkit (SkScalar double : Type) : Type := {
  SkColorToHSV : SkColor -> HSV SkScalar;
  SkHSVToColor : HSV SkScalar -> SkColor;
  SkColorToHSL : SkColor -> HSL double;
  HSLToSkColor : HSL double -> SkAlpha -> SkColor;
  image_width : ResourceId -> Z;
  image_height : ResourceId -> Z;
  Center : Rect -> Size -> Rect
}.

(** ** The renderer *)

(** [std::max] and [std::min], as the C++ library defines them with [<]. *)
Definition std_max {T : Type} {ops : ScalarOps T} (a b : T) : T :=
  if (a <? b)%sc then b else a.
Definition std_min {T : Type} {ops : ScalarOps T} (a b : T) : T :=
  if (b <? a)%sc then b else a.

Definition kButtonLength : Z := 14.
Definition kScrollbarWidth : Z := 15.
Definition kThumbInactiveColor : SkColor := 0xeaeaea.
Definition kTrackColor : SkColor := 0xd3d3d3.

Definition kCheckboxAndRadioWidth : Z := 13.
Definition kCheckboxAndRadioHeight : Z := 13.

Definition kSliderThumbWidth : Z := 11.
Definition kSliderThumbHeight : Z := 21.

Definition kSliderTrackBackgroundColor : SkColor := SkColorSetRGB 0xe3 0xdd 0xd8.
Definition kSliderThumbLightGrey : SkColor := SkColorSetRGB 0xf4 0xf2 0xef.
Definition kSliderThumbDarkGrey : SkColor := SkColorSetRGB 0xea 0xe5 0xe0.
Definition kSliderThumbBorderDarkGrey : SkColor := SkColorSetRGB 0x9d 0x96 0x8e.

Definition GetPartSize (part : Part) (state : State) (extra : ExtraParams) : Size :=
  match part with
  | kScrollbarDownArrow | kScrollbarUpArrow =>
      mkSize kScrollbarWidth kButtonLength
  | kScrollbarLeftArrow | kScrollbarRightArrow =>
      mkSize kButtonLength kScrollbarWidth
  | kCheckbox | kRadio =>
      mkSize kCheckboxAndRadioWidth kCheckboxAndRadioHeight
  | kSliderThumb =>
      mkSize kSliderThumbWidth kSliderThumbHeight
  | kInnerSpinButton =>
      mkSize kScrollbarWidth 0
  | kPushButton | kTextField | kMenuList | kSliderTrack | kProgressBar =>
      mkSize 0 0
  end.

(** [NOTIMPLEMENTED()] only writes to the log; the function then returns. *)
Definition GetSystemColor {ColorId : Type} (color_id : ColorId) : SkColor :=
  SK_ColorBLACK.

Section NativeThemeAndroid.

Context {SkScalar double : Type}.
Context {scalar_ops : ScalarOps SkScalar} {double_ops : ScalarOps double}.
Context {conversion : Conversion SkScalar double}.
Context {toolkit : Toolkit SkScalar double}.

(** An [int] passed where an [SkScalar] or a [double] is expected. *)
Definition SkIntToScalar (n : Z) : SkScalar := sc_lit (inject_Z n).
Definition int_to_double (n : Z) : double := sc_lit (inject_Z n).

Definition BrightenColor (hsl : HSL double) (alpha : SkAlpha)
    (lightness_amount : double) : SkColor :=
  let l := (hsl_l hsl + lightness_amount)%sc in
  let l := if (l >? sc_lit 1.0)%sc then sc_lit 1.0 else l in
  let l := if (l <? sc_lit 0.0)%sc then sc_lit 0.0 else l in
  HSLToSkColor (mkHSL (hsl_h hsl) (hsl_s hsl) l) alpha.

Definition Clamp (value min max : SkScalar) : SkScalar :=
  std_min (std_max value min) max.

(** The array [color] that [SaturateAndBrighten] hands to [SkHSVToColor]. *)
Definition SaturateAndBrighten_color (hsv : HSV SkScalar)
    (saturate_amount brighten_amount : SkScalar) : HSV SkScalar :=
  mkHSV (hsv_0 hsv)
        (Clamp (hsv_1 hsv + saturate_amount)%sc (sc_lit 0.0) (sc_lit 1.0))
        (Clamp (hsv_2 hsv + brighten_amount)%sc (sc_lit 0.0) (sc_lit 1.0)).

Definition SaturateAndBrighten (hsv : HSV SkScalar)
    (saturate_amount brighten_amount : SkScalar) : SkColor :=
  SkHSVToColor (SaturateAndBrighten_color hsv saturate_amount brighten_amount).

(** The local [min_diff] of [OutlineColor]. The sum of the saturations is
    multiplied by the [double] 1.2 and converted back. *)
Definition OutlineColor_min_diff (hsv1 hsv2 : HSV SkScalar) : SkScalar :=
  Clamp (of_double (to_double (hsv_1 hsv1 + hsv_1 hsv2) * sc_lit 1.2)%sc)
        (sc_lit 0.28) (sc_lit 0.5).

(** The local [diff] of [OutlineColor], before and after the sign flip. *)
Definition OutlineColor_abs_diff (hsv1 hsv2 : HSV SkScalar) : SkScalar :=
  Clamp (of_double (sc_abs (to_double (hsv_2 hsv1 - hsv_2 hsv2)) / sc_lit 2)%sc)
        (OutlineColor_min_diff hsv1 hsv2) (sc_lit 0.5).

Definition OutlineColor_diff (hsv1 hsv2 : HSV SkScalar) : SkScalar :=
  let diff := OutlineColor_abs_diff hsv1 hsv2 in
  if (to_double (hsv_2 hsv1 + hsv_2 hsv2) >? sc_lit 1.0)%sc
  then (- diff)%sc else diff.

Definition OutlineColor (hsv1 hsv2 : HSV SkScalar) : SkColor :=
  SaturateAndBrighten hsv2 (sc_lit (-0.2)) (OutlineColor_diff hsv1 hsv2).

(** *** Lines and boxes *)

Definition DrawVertLine (x y1 y2 : Z) (paint : SkPaint SkScalar)
    : list (DrawCall SkScalar) :=
  [drawIRect x y1 (x + 1) (y2 + 1) paint].

Definition DrawHorizLine (x1 x2 y : Z) (paint : SkPaint SkScalar)
    : list (DrawCall SkScalar) :=
  [drawIRect x1 y (x2 + 1) (y + 1) paint].

Definition DrawBox (rect : Rect) (paint : SkPaint SkScalar)
    : list (DrawCall SkScalar) :=
  let right := rect_x rect + rect_width rect - 1 in
  let bottom := rect_y rect + rect_height rect - 1 in
  DrawHorizLine (rect_x rect) right (rect_y rect) paint
  ++ DrawVertLine right (rect_y rect) bottom paint
  ++ DrawHorizLine (rect_x rect) right bottom paint
  ++ DrawVertLine (rect_x rect) (rect_y rect) bottom paint.

Definition DrawImageInt (image : ResourceId)
    (src_x src_y src_w src_h dest_x dest_y dest_w dest_h : Z)
    : list (DrawCall SkScalar) :=
  [CanvasDrawImageInt image src_x src_y src_w src_h
     dest_x dest_y dest_w dest_h true].

Definition DrawTiledImage (image : ResourceId) (src_x src_y : Z)
    (tile_scale_x tile_scale_y : SkScalar) (dest_x dest_y w h : Z)
    : list (DrawCall SkScalar) :=
  [CanvasTileImageInt image src_x src_y tile_scale_x tile_scale_y
     dest_x dest_y w h].

(** *** Arrow buttons *)

(** The closed outline of an arrow button. *)
Definition arrow_outline (rect : Rect) (direction : Part)
    : list (PathVerb SkScalar) :=
  let x := rect_x rect in
  let y := rect_y rect in
  let width := rect_width rect in
  let height := rect_height rect in
  match direction with
  | kScrollbarUpArrow =>
      [ moveTo (of_double (int_to_double x + sc_lit 0.5)%sc)
               (of_double (int_to_double (y + height) + sc_lit 0.5)%sc);
        rLineTo (SkIntToScalar 0) (SkIntToScalar (- (height - 2)));
        rLineTo (SkIntToScalar 2) (SkIntToScalar (-2));
        rLineTo (SkIntToScalar (width - 5)) (SkIntToScalar 0);
        rLineTo (SkIntToScalar 2) (SkIntToScalar 2);
        rLineTo (SkIntToScalar 0) (SkIntToScalar (height - 2)) ]
  | kScrollbarDownArrow =>
      [ moveTo (of_double (int_to_double x + sc_lit 0.5)%sc)
               (of_double (int_to_double y - sc_lit 0.5)%sc);
        rLineTo (SkIntToScalar 0) (SkIntToScalar (height - 2));
        rLineTo (SkIntToScalar 2) (SkIntToScalar 2);
        rLineTo (SkIntToScalar (width - 5)) (SkIntToScalar 0);
        rLineTo (SkIntToScalar 2) (SkIntToScalar (-2));
        rLineTo (SkIntToScalar 0) (SkIntToScalar (- (height - 2))) ]
  | kScrollbarRightArrow =>
      [ moveTo (of_double (int_to_double x - sc_lit 0.5)%sc)
               (of_double (int_to_double y + sc_lit 0.5)%sc);
        rLineTo (SkIntToScalar (width - 2)) (SkIntToScalar 0);
        rLineTo (SkIntToScalar 2) (SkIntToScalar 2);
        rLineTo (SkIntToScalar 0) (SkIntToScalar (height - 5));
        rLineTo (SkIntToScalar (-2)) (SkIntToScalar 2);
        rLineTo (SkIntToScalar (- (width - 2))) (SkIntToScalar 0) ]
  | kScrollbarLeftArrow =>
      [ moveTo (of_double (int_to_double (x + width) + sc_lit 0.5)%sc)
               (of_double (int_to_double y + sc_lit 0.5)%sc);
        rLineTo (SkIntToScalar (- (width - 2))) (SkIntToScalar 0);
        rLineTo (SkIntToScalar (-2)) (SkIntToScalar 2);
        rLineTo (SkIntToScalar 0) (SkIntToScalar (height - 5));
        rLineTo (SkIntToScalar 2) (SkIntToScalar 2);
        rLineTo (SkIntToScalar (width - 2)) (SkIntToScalar 0) ]
  | _ => []
  end ++ [close].

(** The closed triangle of an arrow button. *)
Definition arrow_glyph (rect : Rect) (direction : Part)
    (widthMiddle lengthMiddle : Z) : list (PathVerb SkScalar) :=
  let x := rect_x rect in
  let y := rect_y rect in
  match direction with
  | kScrollbarUpArrow =>
      [ moveTo (SkIntToScalar (x + widthMiddle - 4))
               (SkIntToScalar (y + lengthMiddle + 2));
        rLineTo (SkIntToScalar 7) (SkIntToScalar 0);
        rLineTo (SkIntToScalar (-4)) (SkIntToScalar (-4)) ]
  | kScrollbarDownArrow =>
      [ moveTo (SkIntToScalar (x + widthMiddle - 4))
               (SkIntToScalar (y + lengthMiddle - 3));
        rLineTo (SkIntToScalar 7) (SkIntToScalar 0);
        rLineTo (SkIntToScalar (-4)) (SkIntToScalar 4) ]
  | kScrollbarRightArrow =>
      [ moveTo (SkIntToScalar (x + lengthMiddle - 3))
               (SkIntToScalar (y + widthMiddle - 4));
        rLineTo (SkIntToScalar 0) (SkIntToScalar 7);
        rLineTo (SkIntToScalar 4) (SkIntToScalar (-4)) ]
  | kScrollbarLeftArrow =>
      [ moveTo (SkIntToScalar (x + lengthMiddle + 1))
               (SkIntToScalar (y + widthMiddle - 5));
        rLineTo (SkIntToScalar 0) (SkIntToScalar 9);
        rLineTo (SkIntToScalar (-4)) (SkIntToScalar (-4)) ]
  | _ => []
  end ++ [close].

Definition PaintArrowButton (rect : Rect) (direction : Part) (state : State)
    : list (DrawCall SkScalar) :=
  let '(widthMiddle, lengthMiddle) :=
    match direction with
    | kScrollbarUpArrow | kScrollbarDownArrow =>
        (rect_width rect ÷ 2 + 1, rect_height rect ÷ 2 + 1)
    | _ =>
        (rect_height rect ÷ 2 + 1, rect_width rect ÷ 2 + 1)
    end in
  let paint : SkPaint SkScalar := SkPaint_new in
  (* Calculate button color. *)
  let trackHSV := SkColorToHSV kTrackColor in
  let buttonColor := SaturateAndBrighten trackHSV (sc_lit 0) (sc_lit 0.2) in
  let backgroundColor := buttonColor in
  let buttonColor :=
    match state with
    | kPressed =>
        SaturateAndBrighten (SkColorToHSV buttonColor) (sc_lit 0) (sc_lit (-0.1))
    | kHovered =>
        SaturateAndBrighten (SkColorToHSV buttonColor) (sc_lit 0) (sc_lit 0.05)
    | _ => buttonColor
    end in
  (* Paint the background. *)
  let paint := setColor backgroundColor paint in
  let background :=
    drawIRect (rect_x rect) (rect_y rect)
              (rect_x rect + rect_width rect) (rect_y rect + rect_height rect)
              paint in
  (* Paint the button's outline and fill the middle. *)
  let outline := arrow_outline rect direction in
  let paint := setColor buttonColor (setStyle kFill_Style paint) in
  let fill := drawPath outline paint in
  let paint := setStyle kStroke_Style (setAntiAlias true paint) in
  let thumbHSV := SkColorToHSV kThumbInactiveColor in
  let paint := setColor (OutlineColor trackHSV thumbHSV) paint in
  let stroke := drawPath outline paint in
  (* A disabled arrow keeps the outline color. *)
  let paint :=
    if State_eqb state kDisabled then paint else setColor SK_ColorBLACK paint in
  let paint := setStyle kFill_Style (setAntiAlias false paint) in
  let path := arrow_glyph rect direction widthMiddle lengthMiddle in
  [background; fill; stroke; drawPath path paint].

(** *** Checkbox and radio button *)

(** The image [PaintCheckbox] selects. *)
Definition checkbox_image (state : State) (button : ButtonExtraParams)
    : ResourceId :=
  if indeterminate button then
    if State_eqb state kDisabled
    then IDR_CHECKBOX_DISABLED_INDETERMINATE else IDR_CHECKBOX_INDETERMINATE
  else if checked button then
    if State_eqb state kDisabled
    then IDR_CHECKBOX_DISABLED_ON else IDR_CHECKBOX_ON
  else
    if State_eqb state kDisabled
    then IDR_CHECKBOX_DISABLED_OFF else IDR_CHECKBOX_OFF.

Definition PaintCheckbox (state : State) (rect : Rect)
    (button : ButtonExtraParams) : list (DrawCall SkScalar) :=
  let image := checkbox_image state button in
  let bounds := Center rect (mkSize (image_width image) (image_height image)) in
  DrawImageInt image 0 0 (image_width image) (image_height image)
    (rect_x bounds) (rect_y bounds) (rect_width bounds) (rect_height bounds).

(** The image [PaintRadio] selects. *)
Definition radio_image (state : State) (button : ButtonExtraParams)
    : ResourceId :=
  if State_eqb state kDisabled then
    if checked button then IDR_RADIO_DISABLED_ON else IDR_RADIO_DISABLED_OFF
  else
    if checked button then IDR_RADIO_ON else IDR_RADIO_OFF.

Definition PaintRadio (state : State) (rect : Rect)
    (button : ButtonExtraParams) : list (DrawCall SkScalar) :=
  let image := radio_image state button in
  let bounds := Center rect (mkSize (image_width image) (image_height image)) in
  DrawImageInt image 0 0 (image_width image) (image_height image)
    (rect_x bounds) (rect_y bounds) (rect_width bounds) (rect_height bounds).

(** *** Push button *)

Definition PaintButton (state : State) (rect : Rect)
    (button : ButtonExtraParams) : list (DrawCall SkScalar) :=
  let paint : SkPaint SkScalar := SkPaint_new in
  let kRight := rect_right rect in
  let kBottom := rect_bottom rect in
  let base_color := button_background_color button in
  let base_hsl := SkColorToHSL base_color in
  (* The luminance increase from 0xdd to 0xf8. *)
  let light_color :=
    BrightenColor base_hsl (SkColorGetA base_color) (sc_lit 0.105) in
  (* If the button is too small, fall back to a single, solid color. *)
  if (rect_width rect <? 5) || (rect_height rect <? 5) then
    let paint := setColor base_color paint in
    [drawRect (SkIntToScalar (rect_x rect)) (SkIntToScalar (rect_y rect))
              (SkIntToScalar kRight) (SkIntToScalar kBottom) paint]
  else
    let kBorderAlpha := if State_eqb state kHovered then 0x80 else 0x55 in
    let border_paint := setARGB kBorderAlpha 0 0 0 paint in
    let border :=
      if has_border button then
        [ drawLine (SkIntToScalar (rect_x rect + 1)) (SkIntToScalar (rect_y rect))
                   (SkIntToScalar (kRight - 1)) (SkIntToScalar (rect_y rect))
                   border_paint;
          drawLine (SkIntToScalar (kRight - 1)) (SkIntToScalar (rect_y rect + 1))
                   (SkIntToScalar (kRight - 1)) (SkIntToScalar (kBottom - 1))
                   border_paint;
          drawLine (SkIntToScalar (rect_x rect + 1)) (SkIntToScalar (kBottom - 1))
                   (SkIntToScalar (kRight - 1)) (SkIntToScalar (kBottom - 1))
                   border_paint;
          drawLine (SkIntToScalar (rect_x rect)) (SkIntToScalar (rect_y rect + 1))
                   (SkIntToScalar (rect_x rect)) (SkIntToScalar (kBottom - 1))
                   border_paint ]
      else [] in
    let paint := if has_border button then border_paint else paint in
    let paint := setColor SK_ColorBLACK paint in
    (* [gradient_bounds[kLightEnd]] is the top, [gradient_bounds[kDarkEnd]]
       the bottom; [kLightEnd] is 1 when pressed and 0 otherwise. *)
    let top := (SkIntToScalar (rect_x rect), SkIntToScalar (rect_y rect)) in
    let bottom := (SkIntToScalar (rect_x rect), SkIntToScalar (kBottom - 1)) in
    let shader :=
      if State_eqb state kPressed
      then mkGradient bottom top light_color base_color
      else mkGradient top bottom light_color base_color in
    let paint := setShader (Some shader) (setStyle kFill_Style paint) in
    let body :=
      if has_border button then
        drawRect (SkIntToScalar (rect_x rect + 1)) (SkIntToScalar (rect_y rect + 1))
                 (SkIntToScalar (kRight - 1)) (SkIntToScalar (kBottom - 1)) paint
      else
        drawRect (SkIntToScalar (rect_x rect)) (SkIntToScalar (rect_y rect))
                 (SkIntToScalar kRight) (SkIntToScalar kBottom) paint in
    let paint := setShader None paint in
    let corners :=
      if has_border button then
        let paint :=
          setColor (BrightenColor base_hsl (SkColorGetA base_color)
                      (sc_lit (-0.0588))) paint in
        [ drawPoint (SkIntToScalar (rect_x rect + 1))
                    (SkIntToScalar (rect_y rect + 1)) paint;
          drawPoint (SkIntToScalar (kRight - 2))
                    (SkIntToScalar (rect_y rect + 1)) paint;
          drawPoint (SkIntToScalar (rect_x rect + 1))
                    (SkIntToScalar (kBottom - 2)) paint;
          drawPoint (SkIntToScalar (kRight - 2))
                    (SkIntToScalar (kBottom - 2)) paint ]
      else [] in
    border ++ [CreateLinear shader; body] ++ corners.

(** *** Text field *)

Definition PaintTextField (state : State) (rect : Rect)
    (text : TextFieldExtraParams) : list (DrawCall SkScalar) :=
  let bounds_left := SkIntToScalar (rect_x rect) in
  let bounds_top := SkIntToScalar (rect_y rect) in
  let bounds_right := SkIntToScalar (rect_right rect - 1) in
  let bounds_bottom := SkIntToScalar (rect_bottom rect - 1) in
  let fill_paint : SkPaint SkScalar :=
    setColor (text_background_color text) (setStyle kFill_Style SkPaint_new) in
  let background :=
    drawRect bounds_left bounds_top bounds_right bounds_bottom fill_paint in
  if is_text_area text then
    (* Draw text area border: 1px solid black. *)
    let fill_paint := setColor SK_ColorBLACK (setStyle kStroke_Style fill_paint) in
    [background;
     drawRect bounds_left bounds_top bounds_right bounds_bottom fill_paint]
  else
    (* Draw text input and listbox inset border. *)
    let kLightColor :=
      if is_listbox text
      then SkColorSetRGB 0x80 0x80 0x80 else SkColorSetRGB 0xee 0xee 0xee in
    let kDarkColor :=
      if is_listbox text
      then SkColorSetRGB 0x2c 0x2c 0x2c else SkColorSetRGB 0x9a 0x9a 0x9a in
    let kBorderWidth := if is_listbox text then 1 else 2 in
    let dark_paint : SkPaint SkScalar :=
      setColor kDarkColor
        (setStyle kFill_Style (setAntiAlias true SkPaint_new)) in
    let light_paint : SkPaint SkScalar :=
      setColor kLightColor
        (setStyle kFill_Style (setAntiAlias true SkPaint_new)) in
    let left := rect_x rect in
    let top := rect_y rect in
    let right := rect_right rect in
    let bottom := rect_bottom rect in
    [ background;
      (* Top *)
      drawPath
        [ moveTo (SkIntToScalar left) (SkIntToScalar top);
          lineTo (SkIntToScalar (left + kBorderWidth))
                 (SkIntToScalar (top + kBorderWidth));
          lineTo (SkIntToScalar (right - kBorderWidth))
                 (SkIntToScalar (top + kBorderWidth));
          lineTo (SkIntToScalar right) (SkIntToScalar top) ]
        dark_paint;
      (* Bottom *)
      drawPath
        [ moveTo (SkIntToScalar (left + kBorderWidth))
                 (SkIntToScalar (bottom - kBorderWidth));
          lineTo (SkIntToScalar left) (SkIntToScalar bottom);
          lineTo (SkIntToScalar right) (SkIntToScalar bottom);
          lineTo (SkIntToScalar (right - kBorderWidth))
                 (SkIntToScalar (bottom - kBorderWidth)) ]
        light_paint;
      (* Left *)
      drawPath
        [ moveTo (SkIntToScalar left) (SkIntToScalar top);
          lineTo (SkIntToScalar left) (SkIntToScalar bottom);
          lineTo (SkIntToScalar (left + kBorderWidth))
                 (SkIntToScalar (bottom - kBorderWidth));
          lineTo (SkIntToScalar (left + kBorderWidth))
                 (SkIntToScalar (top + kBorderWidth)) ]
        dark_paint;
      (* Right *)
      drawPath
        [ moveTo (SkIntToScalar (right - kBorderWidth))
                 (SkIntToScalar (top + kBorderWidth));
          lineTo (SkIntToScalar (right - kBorderWidth)) (SkIntToScalar bottom);
          lineTo (SkIntToScalar right) (SkIntToScalar bottom);
          lineTo (SkIntToScalar right) (SkIntToScalar top) ]
        light_paint ].

(** *** Menu list *)

Definition PaintMenuList (state : State) (rect : Rect)
    (menu_list : MenuListExtraParams) : list (DrawCall SkScalar) :=
  (* With a border radius, WebCore paints the background and the border. *)
  let chrome :=
    if has_border_radius menu_list then []
    else
      let button :=
        mkButton (menu_background_color menu_list) (menu_has_border menu_list)
                 false false in
      PaintButton state rect button in
  let paint : SkPaint SkScalar :=
    setStyle kFill_Style (setAntiAlias true (setColor SK_ColorBLACK SkPaint_new)) in
  let path :=
    [ moveTo (SkIntToScalar (arrow_x menu_list))
             (SkIntToScalar (arrow_y menu_list - 3));
      rLineTo (SkIntToScalar 6) (SkIntToScalar 0);
      rLineTo (SkIntToScalar (-3)) (SkIntToScalar 6);
      close ] in
  chrome ++ [drawPath path paint].

(** *** Slider *)

Definition PaintSliderTrack (state : State) (rect : Rect)
    (slider : SliderExtraParams) : list (DrawCall SkScalar) :=
  let kMidX := rect_x rect + rect_width rect ÷ 2 in
  let kMidY := rect_y rect + rect_height rect ÷ 2 in
  let paint : SkPaint SkScalar :=
    setColor kSliderTrackBackgroundColor SkPaint_new in
  if vertical slider then
    [drawRect (SkIntToScalar (Z.max (rect_x rect) (kMidX - 2)))
              (SkIntToScalar (rect_y rect))
              (SkIntToScalar (Z.min (rect_right rect) (kMidX + 2)))
              (SkIntToScalar (rect_bottom rect)) paint]
  else
    [drawRect (SkIntToScalar (rect_x rect))
              (SkIntToScalar (Z.max (rect_y rect) (kMidY - 2)))
              (SkIntToScalar (rect_right rect))
              (SkIntToScalar (Z.min (rect_bottom rect) (kMidY + 2))) paint].

Definition PaintSliderThumb (state : State) (rect : Rect)
    (slider : SliderExtraParams) : list (DrawCall SkScalar) :=
  let hovered := State_eqb state kHovered || in_drag slider in
  let kMidX := rect_x rect + rect_width rect ÷ 2 in
  let kMidY := rect_y rect + rect_height rect ÷ 2 in
  let paint : SkPaint SkScalar :=
    setColor (if hovered then SK_ColorWHITE else kSliderThumbLightGrey)
             SkPaint_new in
  let first_half :=
    if vertical slider
    then drawIRect (rect_x rect) (rect_y rect) (kMidX + 1) (rect_bottom rect) paint
    else drawIRect (rect_x rect) (rect_y rect) (rect_right rect) (kMidY + 1) paint in
  let paint :=
    setColor (if hovered then kSliderThumbLightGrey else kSliderThumbDarkGrey)
             paint in
  let second_half :=
    if vertical slider
    then drawIRect (kMidX + 1) (rect_y rect) (rect_right rect) (rect_bottom rect) paint
    else drawIRect (rect_x rect) (kMidY + 1) (rect_right rect) (rect_bottom rect) paint in
  let paint := setColor kSliderThumbBorderDarkGrey paint in
  [first_half; second_half]
  ++ DrawBox rect paint
  ++ (if (rect_height rect >? 10) && (rect_width rect >? 10) then
        DrawHorizLine (kMidX - 2) (kMidX + 2) kMidY paint
        ++ DrawHorizLine (kMidX - 2) (kMidX + 2) (kMidY - 3) paint
        ++ DrawHorizLine (kMidX - 2) (kMidX + 2) (kMidY + 3) paint
      else []).

(** *** Inner spin button *)

(** The states [PaintInnerSpinButton] resolves for the upper and the lower
    arrow: the locals [north_state] and [south_state]. *)
Definition spin_states (state : State)
    (spin_button : InnerSpinButtonExtraParams) : State * State :=
  let state := if read_only spin_button then kDisabled else state in
  let north_state := state in
  let south_state := state in
  if spin_up spin_button then
    (north_state,
     if State_eqb south_state kDisabled then kDisabled else kNormal)
  else
    (if State_eqb north_state kDisabled then kDisabled else kNormal,
     south_state).

Definition PaintInnerSpinButton (state : State) (rect : Rect)
    (spin_button : InnerSpinButtonExtraParams) : list (DrawCall SkScalar) :=
  let '(north_state, south_state) := spin_states state spin_button in
  let half := rect in
  let half := set_height (rect_height rect ÷ 2) half in
  let north := PaintArrowButton half kScrollbarUpArrow north_state in
  let half := set_y (rect_y rect + rect_height rect ÷ 2) half in
  let south := PaintArrowButton half kScrollbarDownArrow south_state in
  north ++ south.

(** *** Progress bar *)

Definition PaintProgressBar (state : State) (rect : Rect)
    (progress_bar : ProgressBarExtraParams) : list (DrawCall SkScalar) :=
  let bar_image := IDR_PROGRESS_BAR in
  let left_border_image := IDR_PROGRESS_BORDER_LEFT in
  let right_border_image := IDR_PROGRESS_BORDER_RIGHT in
  let tile_scale :=
    (SkIntToScalar (rect_height rect)
     / SkIntToScalar (image_height bar_image))%sc in
  let new_tile_width :=
    sc_trunc (SkIntToScalar (image_width bar_image) * tile_scale)%sc in
  let tile_scale_x :=
    (SkIntToScalar new_tile_width / SkIntToScalar (image_width bar_image))%sc in
  let bar :=
    DrawTiledImage bar_image 0 0 tile_scale_x tile_scale
      (rect_x rect) (rect_y rect) (rect_width rect) (rect_height rect) in
  let value :=
    if value_rect_width progress_bar =? 0 then []
    else
      let value_image := IDR_PROGRESS_VALUE in
      let new_tile_width :=
        sc_trunc (SkIntToScalar (image_width value_image) * tile_scale)%sc in
      let tile_scale_x :=
        (SkIntToScalar new_tile_width
         / SkIntToScalar (image_width value_image))%sc in
      DrawTiledImage value_image 0 0 tile_scale_x tile_scale
        (value_rect_x progress_bar) (value_rect_y progress_bar)
        (value_rect_width progress_bar) (value_rect_height progress_bar) in
  let dest_left_border_width :=
    sc_trunc (SkIntToScalar (image_width left_border_image) * tile_scale)%sc in
  let left_border :=
    DrawImageInt left_border_image 0 0
      (image_width left_border_image) (image_height left_border_image)
      (rect_x rect) (rect_y rect) dest_left_border_width (rect_height rect) in
  let dest_right_border_width :=
    sc_trunc (SkIntToScalar (image_width right_border_image) * tile_scale)%sc in
  let dest_x := rect_right rect - dest_right_border_width in
  let right_border :=
    DrawImageInt right_border_image 0 0
      (image_width right_border_image) (image_height right_border_image)
      dest_x (rect_y rect) dest_right_border_width (rect_height rect) in
  bar ++ value ++ left_border ++ right_border.

(** *** Dispatch *)

(** [Paint] reads the member of [extra] that belongs to [part]; a call whose
    [extra] holds another member is outside the caller's contract ([None]).
    The arrow parts read no member. *)
Definition Paint (part : Part) (state : State) (rect : Rect)
    (extra : ExtraParams) : option (list (DrawCall SkScalar)) :=
  match part, extra with
  | (kScrollbarDownArrow | kScrollbarUpArrow
     | kScrollbarLeftArrow | kScrollbarRightArrow), _ =>
      Some (PaintArrowButton rect part state)
  | kCheckbox, extra_button button => Some (PaintCheckbox state rect button)
  | kRadio, extra_button button => Some (PaintRadio state rect button)
  | kPushButton, extra_button button => Some (PaintButton state rect button)
  | kTextField, extra_text_field text_field =>
      Some (PaintTextField state rect text_field)
  | kMenuList, extra_menu_list menu_list =>
      Some (PaintMenuList state rect menu_list)
  | kSliderTrack, extra_slider slider =>
      Some (PaintSliderTrack state rect slider)
  | kSliderThumb, extra_slider slider =>
      Some (PaintSliderThumb state rect slider)
  | kInnerSpinButton, extra_inner_spin inner_spin =>
      Some (PaintInnerSpinButton state rect inner_spin)
  | kProgressBar, extra_progress_bar progress_bar =>
      Some (PaintProgressBar state rect progress_bar)
  | _, _ => None
  end.

End NativeThemeAndroid.

(** ** The specification's formulas *)

(** The clamp of the specification: [v] brought into the interval from [lo]
    to [hi]. *)
Definition clamp_spec {T : Type} {ops : ScalarOps T} (v lo hi : T) : T :=
  if (v <? lo)%sc then lo else if (hi <? v)%sc then hi else v.

Section Specification.

Context {SkScalar double : Type}.
Context {scalar_ops : ScalarOps SkScalar} {double_ops : ScalarOps double}.
Context {conversion : Conversion SkScalar double}.
Context {toolkit : Toolkit SkScalar double}.

(** [OutlineColor] as the specification words it:
    minDiff = clamp((sat_bg + sat_fg) * 1.2, 0.28, 0.5),
    diff = clamp(|val_bg - val_fg| / 2, minDiff, 0.5), negated if
    val_bg + val_fg > 1.0, and the result is
    SaturateAndBrighten(hsv_foreground, -0.2, diff). The arithmetic is the
    one of the program. *)
Definition OutlineColor_spec (hsv_background hsv_foreground : HSV SkScalar)
    : SkColor :=
  let sat_bg := hsv_1 hsv_background in
  let sat_fg := hsv_1 hsv_foreground in
  let val_bg := hsv_2 hsv_background in
  let val_fg := hsv_2 hsv_foreground in
  let minDiff :=
    clamp_spec (of_double (to_double (sat_bg + sat_fg) * sc_lit 1.2)%sc)
               (sc_lit 0.28) (sc_lit 0.5) in
  let diff :=
    clamp_spec (of_double (sc_abs (to_double (val_bg - val_fg)) / sc_lit 2)%sc)
               minDiff (sc_lit 0.5) in
  let diff :=
    if (to_double (val_bg + val_fg) >? sc_lit 1.0)%sc then (- diff)%sc else diff in
  SaturateAndBrighten hsv_foreground (sc_lit (-0.2)) diff.

End Specification.

(** The states of the upper and the lower half of an inner spin button in a
    non-disabled state that is not read-only, as the specification words
    them: the half selected by [spin_up] is Normal and the other half is
    Disabled, the lower half being the Normal one when [spin_up] holds. *)
Definition spin_states_spec (spin_up : bool) : State * State :=
  if spin_up then (kDisabled, kNormal) else (kNormal, kDisabled).

(** The two groups in which the specification places the parts that
    [GetPartSize] answers: those with a fixed intrinsic size and those with
    an empty size. *)
Definition fixed_size_parts : list Part :=
  [kScrollbarUpArrow; kScrollbarDownArrow; kScrollbarLeftArrow;
   kScrollbarRightArrow; kCheckbox; kRadio; kSliderThumb].
Definition empty_size_parts : list Part :=
  [kPushButton; kTextField; kMenuList; kSliderTrack; kProgressBar].

(** ** Reading a list of calls *)

(** Does a call construct a gradient shader, or draw with one? *)
Definition uses_gradient {T : Type} (c : DrawCall T) : bool :=
  match c with
  | CreateLinear _ => true
  | drawIRect _ _ _ _ p | drawRect _ _ _ _ p | drawPath _ p
  | drawLine _ _ _ _ p | drawPoint _ _ p =>
      match paint_shader p with Some _ => true | None => false end
  | _ => false
  end.

(** Is a call a border line or a corner point? *)
Definition is_border_or_corner {T : Type} (c : DrawCall T) : bool :=
  match c with drawLine _ _ _ _ _ | drawPoint _ _ _ => true | _ => false end.

(** Does a call draw the image [id]? *)
Definition ResourceId_eqb (a b : ResourceId) : bool :=
  match a, b with
  | IDR_CHECKBOX_DISABLED_INDETERMINATE, IDR_CHECKBOX_DISABLED_INDETERMINATE
  | IDR_CHECKBOX_INDETERMINATE, IDR_CHECKBOX_INDETERMINATE
  | IDR_CHECKBOX_DISABLED_ON, IDR_CHECKBOX_DISABLED_ON
  | IDR_CHECKBOX_ON, IDR_CHECKBOX_ON
  | IDR_CHECKBOX_DISABLED_OFF, IDR_CHECKBOX_DISABLED_OFF
  | IDR_CHECKBOX_OFF, IDR_CHECKBOX_OFF
  | IDR_RADIO_DISABLED_ON, IDR_RADIO_DISABLED_ON
  | IDR_RADIO_DISABLED_OFF, IDR_RADIO_DISABLED_OFF
  | IDR_RADIO_ON, IDR_RADIO_ON
  | IDR_RADIO_OFF, IDR_RADIO_OFF
  | IDR_PROGRESS_BAR, IDR_PROGRESS_BAR
  | IDR_PROGRESS_BORDER_LEFT, IDR_PROGRESS_BORDER_LEFT
  | IDR_PROGRESS_BORDER_RIGHT, IDR_PROGRESS_BORDER_RIGHT
  | IDR_PROGRESS_VALUE, IDR_PROGRESS_VALUE => true
  | _, _ => false
  end.

Definition draws_image {T : Type} (id : ResourceId) (c : DrawCall T) : bool :=
  match c with
  | CanvasDrawImageInt image _ _ _ _ _ _ _ _ _ => ResourceId_eqb image id
  | CanvasTileImageInt image _ _ _ _ _ _ _ _ => ResourceId_eqb image id
  | _ => false
  end.

(** A path through four points. *)
Definition quad {T : Type} (p0 p1 p2 p3 : T * T) : list (PathVerb T) :=
  [ moveTo (fst p0) (snd p0); lineTo (fst p1) (snd p1);
    lineTo (fst p2) (snd p2); lineTo (fst p3) (snd p3) ].

(** The three decorative ticks of a slider thumb: one-pixel horizontal lines
    from [kMidX - 2] to [kMidX + 2], both included, at [kMidY], [kMidY - 3]
    and [kMidY + 3], in the border colour. *)
Definition slider_thumb_ticks {T : Type} (rect : Rect) : list (DrawCall T) :=
  let kMidX := rect_x rect + rect_width rect ÷ 2 in
  let kMidY := rect_y rect + rect_height rect ÷ 2 in
  let paint := mkPaint kSliderThumbBorderDarkGrey kFill_Style false None in
  [ drawIRect (kMidX - 2) kMidY (kMidX + 2 + 1) (kMidY + 1) paint;
    drawIRect (kMidX - 2) (kMidY - 3) (kMidX + 2 + 1) (kMidY - 3 + 1) paint;
    drawIRect (kMidX - 2) (kMidY + 3) (kMidX + 2 + 1) (kMidY + 3 + 1) paint ].

(** The upper and the lower half of a rectangle, as [PaintInnerSpinButton]
    splits it. *)
Definition upper_half (rect : Rect) : Rect :=
  mkRect (rect_x rect) (rect_y rect) (rect_width rect) (rect_height rect ÷ 2).
Definition lower_half (rect : Rect) : Rect :=
  mkRect (rect_x rect) (rect_y rect + rect_height rect ÷ 2)
         (rect_width rect) (rect_height rect ÷ 2).

(** [Normal] unless [Disabled]. *)
Definition normal_unless_disabled (state : State) : State :=
  match state with kDisabled => kDisabled | _ => kNormal end.

(** ** Reading calls as pixels and paths as points *)

(** The pixels an integer rectangle covers: its left and top edge are
    included, its right and bottom edge are not. *)
Definition irect_covers (left top right bottom px py : Z) : bool :=
  (left <=? px) && (px <? right) && (top <=? py) && (py <? bottom).

(** The pixels a [drawIRect] call covers; the other calls are not read. *)
Definition call_covers {T : Type} (c : DrawCall T) (px py : Z) : bool :=
  match c with
  | drawIRect l t r b _ => irect_covers l t r b px py
  | _ => false
  end.

(** The pixels the [drawIRect] calls of a list cover. *)
Definition covered {T : Type} (calls : list (DrawCall T)) (px py : Z) : bool :=
  existsb (fun c => call_covers c px py) calls.

(** The pixels of a [gfx::Rect]. *)
Definition in_rect (rect : Rect) (px py : Z) : bool :=
  irect_covers (rect_x rect) (rect_y rect) (rect_right rect) (rect_bottom rect)
               px py.

(** Is a call a [drawIRect]? *)
Definition is_drawIRect {T : Type} (c : DrawCall T) : bool :=
  match c with drawIRect _ _ _ _ _ => true | _ => false end.

(** The points an [SkPath] goes through, in order: [moveTo] starts a contour
    at a point, [lineTo] goes to a point, [rLineTo] goes to the last point
    moved by a difference, and [close] returns to the start of the contour
    without a new point. *)
Fixpoint path_points_from {T : Type} {ops : ScalarOps T}
    (start last : T * T) (path : list (PathVerb T)) : list (T * T) :=
  match path with
  | [] => []
  | moveTo x y :: rest => (x, y) :: path_points_from (x, y) (x, y) rest
  | lineTo x y :: rest => (x, y) :: path_points_from start (x, y) rest
  | rLineTo dx dy :: rest =>
      let p := (fst last + dx, snd last + dy)%sc in
      p :: path_points_from start p rest
  | close :: rest => path_points_from start start rest
  end.

Definition path_points {T : Type} {ops : ScalarOps T}
    (path : list (PathVerb T)) : list (T * T) :=
  path_points_from (sc_lit 0, sc_lit 0) (sc_lit 0, sc_lit 0) path.

(** Equal points and equal lists of points in exact arithmetic. *)
Definition point_eq (p q : Q * Q) : Prop :=
  (fst p == fst q)%Q /\ (snd p == snd q)%Q.
Definition points_eq (ps qs : list (Q * Q)) : Prop := Forall2 point_eq ps qs.

(** A point mirrored in the horizontal and in the vertical axis through the
    centre of a rectangle. *)
Definition flip_vertically (rect : Rect) (p : Q * Q) : Q * Q :=
  (fst p, inject_Z (rect_y rect) + inject_Z (rect_bottom rect) - snd p)%Q.
Definition flip_horizontally (rect : Rect) (p : Q * Q) : Q * Q :=
  (inject_Z (rect_x rect) + inject_Z (rect_right rect) - fst p, snd p)%Q.

(** The path and the paint of a [drawPath] call. *)
Definition call_path {T : Type} (c : DrawCall T) : list (PathVerb T) :=
  match c with drawPath path _ => path | _ => [] end.
Definition call_paint {T : Type} (c : DrawCall T) : option (SkPaint T) :=
  match c with
  | drawIRect _ _ _ _ p | drawRect _ _ _ _ p | drawPath _ p
  | drawLine _ _ _ _ p | drawPoint _ _ p => Some p
  | _ => None
  end.

Section Readings.

Context {SkScalar double : Type}.
Context {scalar_ops : ScalarOps SkScalar} {double_ops : ScalarOps double}.
Context {conversion : Conversion SkScalar double}.
Context {toolkit : Toolkit SkScalar double}.

(** The local [adjusted] of [BrightenColor], which it hands to
    [HSLToSkColor]. *)
Definition BrightenColor_adjusted (hsl : HSL double)
    (lightness_amount : double) : HSL double :=
  let l := (hsl_l hsl + lightness_amount)%sc in
  let l := if (l >? sc_lit 1.0)%sc then sc_lit 1.0 else l in
  let l := if (l <? sc_lit 0.0)%sc then sc_lit 0.0 else l in
  mkHSL (hsl_h hsl) (hsl_s hsl) l.

(** The [ButtonExtraParams] that [PaintMenuList] builds for [PaintButton]. *)
Definition menu_list_button (menu_list : MenuListExtraParams)
    : ButtonExtraParams :=
  mkButton (menu_background_color menu_list) (menu_has_border menu_list)
           false false.

End Readings.

(** ** A toolkit to run the renderer with

    A grey-scale stand-in for the colour conversions, exact on the greys the
    renderer starts from: a colour is read as hue 0, saturation 0 and the
    blue channel over 255 as value or lightness, and written back as the grey
    of that value. Every image is 13 by 13, and [Center] centres a size in a
    rectangle. *)
Definition grey_of (v : Q) (alpha : Z) : SkColor :=
  let c := Qtrunc (v * 255) in SkColorSetARGB alpha c c c.

Definition grey_toolkit : Toolkit Q Q := {|
  SkColorToHSV := fun c => mkHSV 0%Q 0%Q (inject_Z (Z.land c 0xFF) / 255)%Q;
  SkHSVToColor := fun hsv => grey_of (hsv_2 hsv) 0xFF;
  SkColorToHSL := fun c => mkHSL 0%Q 0%Q (inject_Z (Z.land c 0xFF) / 255)%Q;
  HSLToSkColor := fun hsl alpha => grey_of (hsl_l hsl) alpha;
  image_width := fun _ => 13;
  image_height := fun _ => 13;
  Center := fun rect size =>
    let new_width := Z.min (rect_width rect) (size_width size) in
    let new_height := Z.min (rect_height rect) (size_height size) in
    mkRect (rect_x rect + (rect_width rect - new_width) ÷ 2)
           (rect_y rect + (rect_height rect - new_height) ÷ 2)
           new_width new_height
|}.

(** The same stand-in in the arithmetic of the program, IEEE 754 single and
    double precision. *)
Definition float_toolkit : Toolkit float32 float64 := {|
  SkColorToHSV := fun c =>
    mkHSV (sc_lit 0) (sc_lit 0)
          (sc_lit (inject_Z (Z.land c 0xFF)) / sc_lit 255)%sc;
  SkHSVToColor := fun hsv =>
    let c := sc_trunc (hsv_2 hsv * sc_lit 255)%sc in SkColorSetARGB 0xFF c c c;
  SkColorToHSL := fun c =>
    mkHSL (sc_lit 0) (sc_lit 0)
          (sc_lit (inject_Z (Z.land c 0xFF)) / sc_lit 255)%sc;
  HSLToSkColor := fun hsl alpha =>
    let c := sc_trunc (hsl_l hsl * sc_lit 255)%sc in SkColorSetARGB alpha c c c;
  image_width := fun _ => 13;
  image_height := fun _ => 13;
  Center := fun rect size =>
    let new_width := Z.min (rect_width rect) (size_width size) in
    let new_height := Z.min (rect_height rect) (size_height size) in
    mkRect (rect_x rect + (rect_width rect - new_width) ÷ 2)
           (rect_y rect + (rect_height rect - new_height) ÷ 2)
           new_width new_height
|}.

(** ** Valid triples in exact arithmetic *)

(** A channel in the interval from 0 to 1. *)
Definition unit_interval (q : Q) : Prop := (0 <= q <= 1)%Q.

(** A valid triple: saturation and value in the unit interval. *)
Definition valid_hsv (hsv : HSV Q) : Prop :=
  unit_interval (hsv_1 hsv) /\ unit_interval (hsv_2 hsv).

(** * Properties *)

(** ** Helper lemmas *)

Lemma State_eqb_eq (a b : State) : State_eqb a b = true <-> a = b.
Proof. destruct a, b; simpl; split; congruence. Qed.

Lemma State_eqb_disabled (s : State) :
  (if State_eqb s kDisabled then kDisabled else kNormal)
  = normal_unless_disabled s.
Proof. now destruct s. Qed.

Lemma Qltb_lt (a b : Q) : Qltb a b = true <-> (a < b)%Q.
Proof.
  unfold Qltb. rewrite negb_true_iff, <- not_true_iff_false, Qle_bool_iff.
  split; [apply Qnot_le_lt | apply Qlt_not_le].
Qed.

Lemma Qltb_ge (a b : Q) : Qltb a b = false <-> (b <= a)%Q.
Proof.
  unfold Qltb. now rewrite negb_false_iff, Qle_bool_iff.
Qed.

(** Exact arithmetic satisfies the order laws. *)
Lemma Q_order : ScalarOrder Q.
Proof.
  split.
  - intros x. apply Qltb_ge, Qle_refl.
  - reflexivity.
Qed.

(** So does IEEE 754 single precision. *)
Lemma float32_order : ScalarOrder float32.
Proof.
  split.
  - intros [x]. cbn. unfold SFltb.
    destruct x as [s | s | | s m e]; simpl; try reflexivity.
    + now destruct s.
    + rewrite Z.compare_refl, Pos.compare_cont_refl. now destruct s.
  - vm_compute. reflexivity.
Qed.

(** Exact arithmetic and IEEE 754 single precision satisfy the sign laws. *)
Lemma Q_sign : ScalarSign Q.
Proof.
  split.
  - intros x H. apply Qltb_lt in H. apply Qltb_lt.
    cbn [sc_opp sc_lit Q_ops] in *. lra.
  - intros x H. apply Qltb_lt in H. apply Qltb_ge.
    cbn [sc_lit Q_ops] in *. lra.
  - reflexivity.
Qed.

Lemma float32_sign : ScalarSign float32.
Proof.
  split.
  - intros [x] H. destruct x as [s | s | | s m e]; try discriminate H;
      destruct s; try discriminate H; reflexivity.
  - intros [x] H. destruct x as [s | s | | s m e]; try discriminate H;
      destruct s; try discriminate H; reflexivity.
  - vm_compute. reflexivity.
Qed.

Section Properties.

Context {SkScalar double : Type}.
Context {scalar_ops : ScalarOps SkScalar} {double_ops : ScalarOps double}.
Context {conversion : Conversion SkScalar double}.
Context {toolkit : Toolkit SkScalar double}.

(** ** Size and system colour *)

(** C8. [GetSystemColor] is total and constant: for every colour id it
    returns the one fallback colour, opaque black. *)
Theorem GetSystemColor_constant (ColorId : Type) (color_id other_id : ColorId) :
  GetSystemColor color_id = SK_ColorBLACK
  /\ GetSystemColor color_id = GetSystemColor other_id
  /\ SkColorGetA (GetSystemColor color_id) = 0xFF.
Proof. repeat split. Qed.

(** C9. The size of an inner spin button is (15, 0) for every state and
    every extra parameter: the scrollbar width and no height. The part is in
    neither of the specification's two groups; the parts of the first group
    have a positive width and height and the parts of the second have the
    empty size, and (15, 0) is neither. *)
Theorem GetPartSize_InnerSpinButton (state : State) (extra : ExtraParams) :
  GetPartSize kInnerSpinButton state extra = mkSize 15 0
  /\ size_width (GetPartSize kInnerSpinButton state extra) = kScrollbarWidth
  /\ ~ In kInnerSpinButton fixed_size_parts
  /\ ~ In kInnerSpinButton empty_size_parts
  /\ (forall part, In part fixed_size_parts ->
        0 < size_width (GetPartSize part state extra)
        /\ 0 < size_height (GetPartSize part state extra))
  /\ (forall part, In part empty_size_parts ->
        GetPartSize part state extra = mkSize 0 0).
Proof.
  repeat split.
  - simpl. intuition discriminate.
  - simpl. intuition discriminate.
  - simpl in H. intuition (subst; reflexivity).
  - simpl in H. intuition (subst; reflexivity).
  - intros part H. simpl in H. intuition (subst; reflexivity).
Qed.

(** ** Checkbox and radio button *)

Lemma checkbox_image_enabled (state : State) (button : ButtonExtraParams) :
  state <> kDisabled -> checkbox_image state button = checkbox_image kNormal button.
Proof. destruct state; [congruence | reflexivity ..]. Qed.

Lemma radio_image_enabled (state : State) (button : ButtonExtraParams) :
  state <> kDisabled -> radio_image state button = radio_image kNormal button.
Proof. destruct state; [congruence | reflexivity ..]. Qed.

(** C10. For a checkbox and for a radio button, two calls of [Paint] that
    differ only in which of the states Normal, Hovered and Pressed they pass
    select the same image and issue the same single draw call. *)
Theorem Paint_Checkbox_Radio_enabled_states
    (state1 state2 : State) (rect : Rect) (button : ButtonExtraParams) :
  state1 <> kDisabled -> state2 <> kDisabled ->
  checkbox_image state1 button = checkbox_image state2 button
  /\ radio_image state1 button = radio_image state2 button
  /\ Paint kCheckbox state1 rect (extra_button button)
     = Paint kCheckbox state2 rect (extra_button button)
  /\ Paint kRadio state1 rect (extra_button button)
     = Paint kRadio state2 rect (extra_button button)
  /\ (exists call,
        Paint kCheckbox state1 rect (extra_button button) = Some [call]
        /\ draws_image (checkbox_image state2 button) call = true)
  /\ (exists call,
        Paint kRadio state1 rect (extra_button button) = Some [call]
        /\ draws_image (radio_image state2 button) call = true).
Proof.
  intros H1 H2.
  assert (Hc : checkbox_image state1 button = checkbox_image state2 button)
    by (rewrite (checkbox_image_enabled state1), (checkbox_image_enabled state2);
        auto).
  assert (Hr : radio_image state1 button = radio_image state2 button)
    by (rewrite (radio_image_enabled state1), (radio_image_enabled state2);
        auto).
  assert (Hid : forall id, ResourceId_eqb id id = true) by (now intros []).
  simpl. unfold PaintCheckbox, PaintRadio, DrawImageInt.
  rewrite Hc, Hr. repeat split; eexists; (split; [reflexivity | apply Hid]).
Qed.

(** ** Inner spin button *)

(** The states of the two halves: a read-only button is disabled in both;
    otherwise the half selected by [spin_up] (the upper one when it holds)
    keeps the state and the other half is normal unless disabled. *)
Lemma spin_states_resolved (state : State) (spin_button : InnerSpinButtonExtraParams) :
  spin_states state spin_button
  = if read_only spin_button then (kDisabled, kDisabled)
    else if spin_up spin_button then (state, normal_unless_disabled state)
    else (normal_unless_disabled state, state).
Proof.
  unfold spin_states.
  destruct (read_only spin_button), (spin_up spin_button), state; reflexivity.
Qed.

Lemma PaintInnerSpinButton_halves (state : State) (rect : Rect)
    (spin_button : InnerSpinButtonExtraParams) :
  PaintInnerSpinButton state rect spin_button
  = PaintArrowButton (upper_half rect) kScrollbarUpArrow
      (fst (spin_states state spin_button))
    ++ PaintArrowButton (lower_half rect) kScrollbarDownArrow
         (snd (spin_states state spin_button)).
Proof.
  unfold PaintInnerSpinButton.
  destruct (spin_states state spin_button) as [north south].
  reflexivity.
Qed.

(** C1, as amended. [Paint] of an inner spin button paints the upper half of
    the rectangle with the up-arrow routine and the lower half with the
    down-arrow routine. When the button is not read-only, the half selected
    by [spin_up] (the upper half when it holds, the lower half otherwise)
    keeps the state passed in and the other half is painted Normal unless the
    state is Disabled; in the state Normal both halves are therefore painted
    Normal whatever [spin_up] is. When the button is read-only both halves
    are painted Disabled whatever [spin_up] is. *)
Theorem PaintInnerSpinButton_resolves_halves
    (state : State) (rect : Rect) (up : bool) :
  let arrows north south :=
    Some (PaintArrowButton (upper_half rect) kScrollbarUpArrow north
          ++ PaintArrowButton (lower_half rect) kScrollbarDownArrow south) in
  Paint kInnerSpinButton state rect (extra_inner_spin (mkInnerSpin false true))
    = arrows state (normal_unless_disabled state)
  /\ Paint kInnerSpinButton state rect (extra_inner_spin (mkInnerSpin false false))
    = arrows (normal_unless_disabled state) state
  /\ Paint kInnerSpinButton kNormal rect (extra_inner_spin (mkInnerSpin false up))
    = arrows kNormal kNormal
  /\ Paint kInnerSpinButton state rect (extra_inner_spin (mkInnerSpin true up))
    = arrows kDisabled kDisabled.
Proof.
  simpl. rewrite !PaintInnerSpinButton_halves, !spin_states_resolved. simpl.
  repeat split. now destruct up.
Qed.

(** ** Push button *)

(** C5. A push button whose rectangle is narrower or lower than 5 is painted
    by exactly one call: the rectangle filled with the background colour by a
    paint without shader. No gradient shader is constructed and no border
    line or corner point is drawn, whatever the state and [has_border]. *)
Theorem PaintButton_small_is_flat_fill
    (state : State) (rect : Rect) (button : ButtonExtraParams) :
  rect_width rect < 5 \/ rect_height rect < 5 ->
  let flat_fill :=
    drawRect (SkIntToScalar (rect_x rect)) (SkIntToScalar (rect_y rect))
             (SkIntToScalar (rect_x rect + rect_width rect))
             (SkIntToScalar (rect_y rect + rect_height rect))
             (mkPaint (button_background_color button) kFill_Style false None) in
  Paint kPushButton state rect (extra_button button) = Some [flat_fill]
  /\ existsb uses_gradient (PaintButton state rect button) = false
  /\ existsb is_border_or_corner (PaintButton state rect button) = false.
Proof.
  intros Hsmall. simpl. unfold PaintButton.
  assert (Hb : (rect_width rect <? 5) || (rect_height rect <? 5) = true).
  { apply orb_true_iff. rewrite !Z.ltb_lt. exact Hsmall. }
  rewrite Hb. repeat split.
Qed.

(** A push button of at least 5 by 5 constructs the gradient: the size test
    is what separates the two cases. *)
Lemma PaintButton_large_uses_gradient
    (state : State) (rect : Rect) (button : ButtonExtraParams) :
  5 <= rect_width rect -> 5 <= rect_height rect ->
  existsb uses_gradient (PaintButton state rect button) = true.
Proof.
  intros Hw Hh. unfold PaintButton.
  assert (Hb : (rect_width rect <? 5) || (rect_height rect <? 5) = false).
  { apply orb_false_iff. rewrite !Z.ltb_ge. split; assumption. }
  rewrite Hb. rewrite existsb_app. apply orb_true_iff. right. reflexivity.
Qed.

(** ** Slider thumb *)

Lemma PaintSliderThumb_calls (state : State) (rect : Rect)
    (slider : SliderExtraParams) :
  exists body,
    length body = 6%nat
    /\ PaintSliderThumb (SkScalar:=SkScalar) state rect slider
       = body ++ (if (rect_height rect >? 10) && (rect_width rect >? 10)
                  then slider_thumb_ticks rect else []).
Proof.
  exists (firstn 6 (PaintSliderThumb state rect slider)).
  unfold PaintSliderThumb, DrawBox, DrawHorizLine, DrawVertLine.
  split; [reflexivity |].
  destruct ((rect_height rect >? 10) && (rect_width rect >? 10)); reflexivity.
Qed.

(** C6, as amended. [Paint] of a slider thumb ends with the three ticks
    centred on the midpoint of the rectangle if and only if the width and the
    height of the rectangle both exceed 10, that is, from 11 by 11 on: the
    six calls of the two halves and the box come first, and the three ticks
    follow them exactly in that case and nothing follows them otherwise. *)
Theorem PaintSliderThumb_ticks (state : State) (rect : Rect)
    (slider : SliderExtraParams) :
  Paint kSliderThumb state rect (extra_slider slider)
    = Some (PaintSliderThumb state rect slider)
  /\ (skipn 6 (PaintSliderThumb (SkScalar:=SkScalar) state rect slider) = slider_thumb_ticks rect
      <-> 10 < rect_height rect /\ 10 < rect_width rect)
  /\ (skipn 6 (PaintSliderThumb (SkScalar:=SkScalar) state rect slider) = []
      <-> ~ (10 < rect_height rect /\ 10 < rect_width rect)).
Proof.
  split; [reflexivity |].
  destruct (PaintSliderThumb_calls state rect slider) as (body & Hlen & ->).
  rewrite skipn_app, <- Hlen, skipn_all, Nat.sub_diag. simpl.
  assert (Hticks : slider_thumb_ticks (T:=SkScalar) rect <> []) by discriminate.
  destruct (rect_height rect >? 10) eqn:Hh;
    destruct (rect_width rect >? 10) eqn:Hw;
    simpl; rewrite Z.gtb_ltb in Hh, Hw;
    rewrite ?Z.ltb_lt, ?Z.ltb_ge in Hh, Hw;
    (split; split; intros H);
    solve [ reflexivity | lia | congruence | symmetry in H; contradiction ].
Qed.

(** ** Progress bar *)

(** C7. [Paint] of a progress bar tiles the bar image over the rectangle,
    then tiles the value image into the value rectangle if and only if
    [value_rect_width] is not zero, then draws the left and the right cap.
    The vertical scale of both tilings is the height of the rectangle over
    the height of the bar image, and the horizontal scale of each is the
    width its image has under that scale, truncated to an integer, over the
    width of the image. Each cap is as high as the rectangle and as wide as
    its image under the same scale, truncated; the left cap starts at the
    left edge of the rectangle and the right cap ends at its right edge. *)
Theorem PaintProgressBar_calls (state : State) (rect : Rect)
    (progress_bar : ProgressBarExtraParams) :
  let scale :=
    (SkIntToScalar (rect_height rect)
     / SkIntToScalar (image_height IDR_PROGRESS_BAR))%sc in
  let scaled_width image :=
    sc_trunc (SkIntToScalar (image_width image) * scale)%sc in
  let tile image :=
    CanvasTileImageInt image 0 0
      (SkIntToScalar (scaled_width image) / SkIntToScalar (image_width image))%sc
      scale in
  let cap image dest_x :=
    CanvasDrawImageInt image 0 0 (image_width image) (image_height image)
      dest_x (rect_y rect) (scaled_width image) (rect_height rect) true in
  let value :=
    tile IDR_PROGRESS_VALUE
      (value_rect_x progress_bar) (value_rect_y progress_bar)
      (value_rect_width progress_bar) (value_rect_height progress_bar) in
  let right_x := rect_x rect + rect_width rect
                 - scaled_width IDR_PROGRESS_BORDER_RIGHT in
  Paint kProgressBar state rect (extra_progress_bar progress_bar)
    = Some ([tile IDR_PROGRESS_BAR (rect_x rect) (rect_y rect)
               (rect_width rect) (rect_height rect)]
            ++ (if value_rect_width progress_bar =? 0 then [] else [value])
            ++ [cap IDR_PROGRESS_BORDER_LEFT (rect_x rect);
                cap IDR_PROGRESS_BORDER_RIGHT right_x])
  /\ (existsb (draws_image IDR_PROGRESS_VALUE)
        (PaintProgressBar state rect progress_bar) = true
      <-> value_rect_width progress_bar <> 0)
  /\ right_x + scaled_width IDR_PROGRESS_BORDER_RIGHT
     = rect_x rect + rect_width rect.
Proof.
  cbv zeta. split; [| split].
  - simpl. unfold PaintProgressBar, DrawTiledImage, DrawImageInt, rect_right.
    destruct (value_rect_width progress_bar =? 0); reflexivity.
  - unfold PaintProgressBar, DrawTiledImage, DrawImageInt.
    destruct (Z.eqb_spec (value_rect_width progress_bar) 0) as [H | H];
      simpl; split; congruence.
  - lia.
Qed.

(** ** Text field *)

(** C4, as amended. [Paint] of a text field that is not a text area fills
    the background and then draws four edge quads by five calls in all: the
    top and the left quad in the dark colour, the bottom and the right quad
    in the light colour, the pair of colours being the one of the listbox
    when [is_listbox] holds, and the border being 1 wide for a listbox and 2
    otherwise. The top, the bottom and the left quad are paths through the
    two outer corners of their edge and its two inner inset corners. The
    right quad is a path through the two outer corners of the right edge,
    its upper inner inset corner and a fourth point on the inner edge. *)
Theorem PaintTextField_inset_bevel (state : State) (rect : Rect)
    (background_color : SkColor) (listbox : bool) :
  let light :=
    if listbox then SkColorSetRGB 0x80 0x80 0x80 else SkColorSetRGB 0xee 0xee 0xee in
  let dark :=
    if listbox then SkColorSetRGB 0x2c 0x2c 0x2c else SkColorSetRGB 0x9a 0x9a 0x9a in
  let border := if listbox then 1 else 2 in
  let fill color := mkPaint color kFill_Style true None in
  let point x y := (SkIntToScalar x, SkIntToScalar y) in
  let left := rect_x rect in
  let top := rect_y rect in
  let right := rect_x rect + rect_width rect in
  let bottom := rect_y rect + rect_height rect in
  exists y : Z,
    Paint kTextField state rect
      (extra_text_field (mkTextField background_color false listbox))
    = Some
        [ drawRect (SkIntToScalar left) (SkIntToScalar top)
            (SkIntToScalar (right - 1)) (SkIntToScalar (bottom - 1))
            (mkPaint background_color kFill_Style false None);
          drawPath
            (quad (point left top) (point (left + border) (top + border))
                  (point (right - border) (top + border)) (point right top))
            (fill dark);
          drawPath
            (quad (point (left + border) (bottom - border)) (point left bottom)
                  (point right bottom) (point (right - border) (bottom - border)))
            (fill light);
          drawPath
            (quad (point left top) (point left bottom)
                  (point (left + border) (bottom - border))
                  (point (left + border) (top + border)))
            (fill dark);
          drawPath
            (quad (point (right - border) (top + border)) (point (right - border) y)
                  (point right bottom) (point right top))
            (fill light) ].
Proof.
  cbv zeta. exists (rect_y rect + rect_height rect).
  destruct listbox; reflexivity.
Qed.

(** The fourth point of the right quad: the code takes it on the bottom edge
    of the rectangle, not on the inner inset corner. *)
Lemma PaintTextField_right_quad (state : State) (rect : Rect)
    (text : TextFieldExtraParams) :
  is_text_area text = false ->
  let border := if is_listbox text then 1 else 2 in
  exists paint,
    nth_error (PaintTextField state rect text) 4
    = Some (drawPath
              (quad (SkIntToScalar (rect_right rect - border),
                     SkIntToScalar (rect_y rect + border))
                    (SkIntToScalar (rect_right rect - border),
                     SkIntToScalar (rect_bottom rect))
                    (SkIntToScalar (rect_right rect), SkIntToScalar (rect_bottom rect))
                    (SkIntToScalar (rect_right rect), SkIntToScalar (rect_y rect)))
              paint).
Proof.
  intros Harea. unfold PaintTextField. rewrite Harea. eexists. reflexivity.
Qed.

(** ** Outline colour *)

Section Clamps.

Context {order : ScalarOrder SkScalar}.

(** [Clamp] is the clamp of the specification whenever its bounds are in
    order. *)
Lemma Clamp_is_clamp (value min max : SkScalar) :
  (max <? min)%sc = false -> Clamp value min max = clamp_spec value min max.
Proof.
  intros Hbounds. unfold Clamp, clamp_spec, std_min, std_max.
  destruct (value <? min)%sc; [now rewrite Hbounds | reflexivity].
Qed.

(** [Clamp] never exceeds its upper bound. *)
Lemma Clamp_upper (value min max : SkScalar) :
  (max <? Clamp value min max)%sc = false.
Proof.
  unfold Clamp, std_min.
  destruct (max <? std_max value min)%sc eqn:H;
    [apply sc_ltb_irrefl | exact H].
Qed.

(** C2. [OutlineColor] returns exactly what the specification's formula
    gives: SaturateAndBrighten of the foreground triple with -0.2 and diff,
    where minDiff = clamp((sat_bg + sat_fg) * 1.2, 0.28, 0.5) and
    diff = clamp(|val_bg - val_fg| / 2, minDiff, 0.5), negated if and only
    if val_bg + val_fg > 1.0. It holds for every pair of triples, whatever
    the rounding of the arithmetic. *)
Theorem OutlineColor_refines_spec (hsv_background hsv_foreground : HSV SkScalar) :
  OutlineColor hsv_background hsv_foreground
  = OutlineColor_spec hsv_background hsv_foreground.
Proof.
  unfold OutlineColor, OutlineColor_spec, OutlineColor_diff,
    OutlineColor_abs_diff, OutlineColor_min_diff.
  rewrite (Clamp_is_clamp _ (Clamp _ _ _) (sc_lit 0.5)) by apply Clamp_upper.
  rewrite (Clamp_is_clamp _ (sc_lit 0.28) (sc_lit 0.5)) by apply sc_bounds_ordered.
  reflexivity.
Qed.

(** [Clamp] is never below its lower bound when its bounds are in order,
    and is the value itself when the value is not outside the bounds. *)
Lemma Clamp_lower (value min max : SkScalar) :
  (max <? min)%sc = false -> (Clamp value min max <? min)%sc = false.
Proof.
  intros Hbounds. unfold Clamp, std_min, std_max.
  destruct (value <? min)%sc eqn:H1.
  - rewrite Hbounds. apply sc_ltb_irrefl.
  - destruct (max <? value)%sc; [exact Hbounds | exact H1].
Qed.

Lemma Clamp_inside (value min max : SkScalar) :
  (value <? min)%sc = false -> (max <? value)%sc = false ->
  Clamp value min max = value.
Proof.
  intros H1 H2. unfold Clamp, std_min, std_max. now rewrite H1, H2.
Qed.

Context {sign : ScalarSign SkScalar}.

(** C3, as amended. For every pair of triples and in the arithmetic of the
    code, whatever its rounding: [min_diff] is not less than 0.28 and not
    greater than 0.5; the magnitude that [OutlineColor] computes before the
    sign flip is not less than [min_diff] and not greater than 0.5; the
    adjustment it passes to [SaturateAndBrighten] is that magnitude negated
    exactly when the sum of the two values, as the code computes it,
    compares greater than 1.0, and the magnitude itself otherwise, so that
    for a positive magnitude the adjustment is negative exactly then. The
    value of the result is the value of the second triple plus the
    adjustment, as computed, clamped to the unit interval: it is not less
    than 0.0 and not greater than 1.0, and it is the computed sum itself
    when that is not outside the unit interval. *)
Theorem OutlineColor_value_adjustment (hsv1 hsv2 : HSV SkScalar) :
  let min_diff := OutlineColor_min_diff hsv1 hsv2 in
  let magnitude := OutlineColor_abs_diff hsv1 hsv2 in
  let diff := OutlineColor_diff hsv1 hsv2 in
  let result := SaturateAndBrighten_color hsv2 (sc_lit (-0.2)) diff in
  let sum_exceeds_one :=
    (to_double (hsv_2 hsv1 + hsv_2 hsv2) >? sc_lit 1.0)%sc in
  (min_diff <? sc_lit 0.28)%sc = false
  /\ (sc_lit 0.5 <? min_diff)%sc = false
  /\ (magnitude <? min_diff)%sc = false
  /\ (sc_lit 0.5 <? magnitude)%sc = false
  /\ diff = (if sum_exceeds_one then (- magnitude)%sc else magnitude)
  /\ ((sc_lit 0 <? magnitude)%sc = true ->
      (diff <? sc_lit 0)%sc = sum_exceeds_one)
  /\ OutlineColor hsv1 hsv2 = SkHSVToColor result
  /\ hsv_2 result = Clamp (hsv_2 hsv2 + diff)%sc (sc_lit 0.0) (sc_lit 1.0)
  /\ (hsv_2 result <? sc_lit 0.0)%sc = false
  /\ (sc_lit 1.0 <? hsv_2 result)%sc = false
  /\ ((hsv_2 hsv2 + diff <? sc_lit 0.0)%sc = false ->
      (sc_lit 1.0 <? hsv_2 hsv2 + diff)%sc = false ->
      hsv_2 result = (hsv_2 hsv2 + diff)%sc).
Proof.
  cbv zeta.
  split; [apply Clamp_lower, sc_bounds_ordered |].
  split; [apply Clamp_upper |].
  split; [apply Clamp_lower, Clamp_upper |].
  split; [apply Clamp_upper |].
  split; [reflexivity |].
  split.
  { intros Hpos. unfold OutlineColor_diff.
    destruct (to_double (hsv_2 hsv1 + hsv_2 hsv2) >? sc_lit 1.0)%sc.
    - apply sc_opp_negative, Hpos.
    - apply sc_positive_not_negative, Hpos. }
  split; [reflexivity |]. split; [reflexivity |].
  split; [apply Clamp_lower, sc_unit_ordered |].
  split; [apply Clamp_upper |].
  intros Hlo Hhi. apply Clamp_inside; assumption.
Qed.

End Clamps.

End Properties.

(** ** Outline colour in exact arithmetic *)

Section ExactArithmetic.

Local Open Scope Q_scope.

(** In exact arithmetic the clamp of the specification is the usual one. *)
Lemma clamp_spec_Q (v lo hi : Q) :
  lo <= hi -> clamp_spec v lo hi == Qmax lo (Qmin v hi).
Proof.
  intros Hb. unfold clamp_spec. cbn [sc_ltb Q_ops].
  destruct (Qltb v lo) eqn:H1.
  - apply Qltb_lt in H1.
    rewrite (Q.min_l v hi), Q.max_l by lra. reflexivity.
  - apply Qltb_ge in H1. destruct (Qltb hi v) eqn:H2.
    + apply Qltb_lt in H2.
      rewrite (Q.min_r v hi), Q.max_r by lra. reflexivity.
    + apply Qltb_ge in H2.
      rewrite (Q.min_l v hi), Q.max_r by lra. reflexivity.
Qed.

(** [Clamp] in exact arithmetic: the result lies between the bounds and is
    the value itself when the value does. *)
Lemma Clamp_Q_bounds (value min max : Q) :
  min <= max -> min <= Clamp value min max <= max.
Proof.
  intros Hb. unfold Clamp, std_min, std_max. cbn [sc_ltb Q_ops].
  destruct (Qltb value min) eqn:H1.
  - destruct (Qltb max min) eqn:H2.
    + apply Qltb_lt in H2. lra.
    + lra.
  - apply Qltb_ge in H1. destruct (Qltb max value) eqn:H2.
    + lra.
    + apply Qltb_ge in H2. lra.
Qed.

Lemma Clamp_Q_inside (value min max : Q) :
  min <= value <= max -> Clamp value min max = value.
Proof.
  intros [Hlo Hhi]. unfold Clamp, std_min, std_max. cbn [sc_ltb Q_ops].
  destruct (Qltb value min) eqn:H1.
  - apply Qltb_lt in H1. lra.
  - destruct (Qltb max value) eqn:H2; [apply Qltb_lt in H2; lra | reflexivity].
Qed.

End ExactArithmetic.

(** * The renderer at concrete inputs

    Exact arithmetic and the grey-scale toolkit. *)

Section Runs.

#[local] Existing Instance grey_toolkit.

(** ** Inner spin button *)

(** C1 fails as stated. In the state Normal and not read-only, with
    [spin_up], the specification has the upper half Disabled and the lower
    half Normal; the code resolves Normal for both halves, and the calls it
    issues on a 15 by 28 rectangle are not the calls of a Disabled upper
    arrow followed by a Normal lower arrow. Without [spin_up] it is again
    Normal for both. *)
Lemma PaintInnerSpinButton_normal_keeps_both_halves_normal :
  let rect := mkRect 0 0 15 28 in
  spin_states kNormal (mkInnerSpin false true) = (kNormal, kNormal)
  /\ spin_states kNormal (mkInnerSpin false true) <> spin_states_spec true
  /\ spin_states kNormal (mkInnerSpin false false) = (kNormal, kNormal)
  /\ spin_states kNormal (mkInnerSpin false false) <> spin_states_spec false
  /\ Paint (SkScalar:=Q) kInnerSpinButton kNormal rect
       (extra_inner_spin (mkInnerSpin false true))
     <> Some (PaintArrowButton (upper_half rect) kScrollbarUpArrow kDisabled
              ++ PaintArrowButton (lower_half rect) kScrollbarDownArrow kNormal).
Proof.
  cbv zeta.
  split; [reflexivity |]. split; [discriminate |].
  split; [reflexivity |]. split; [discriminate |].
  vm_compute. intros H. discriminate H.
Qed.

(** ** Outline colour *)

(** C2 at an input. The order laws hold in exact arithmetic, so
    [OutlineColor] on the track and the thumb colour is what the
    specification's formula gives. *)
Lemma OutlineColor_refines_spec_witness :
  OutlineColor (SkScalar:=Q) (SkColorToHSV kTrackColor)
    (SkColorToHSV kThumbInactiveColor)
  = OutlineColor_spec (SkColorToHSV kTrackColor)
      (SkColorToHSV kThumbInactiveColor).
Proof.
  apply (OutlineColor_refines_spec (order:=Q_order)).
Defined.

(** C3 fails as stated. For the valid triples (0, 0, 1) and (0, 0, 1/4) the
    computed [min_diff] is 0.28 and the adjustment is -3/8, since the values
    sum to 5/4; the value 1/4 - 3/8 is clamped to 0, so the value of the
    result differs from 1/4 by 1/4 only, which is less than [min_diff]. *)
Lemma OutlineColor_clamped_value_difference :
  let hsv1 := mkHSV 0%Q 0%Q 1%Q in
  let hsv2 := mkHSV 0%Q 0%Q (1 # 4)%Q in
  let min_diff := OutlineColor_min_diff hsv1 hsv2 in
  let diff := OutlineColor_diff hsv1 hsv2 in
  let result := SaturateAndBrighten_color hsv2 (-0.2)%Q diff in
  valid_hsv hsv1 /\ valid_hsv hsv2
  /\ (min_diff == 0.28)%Q
  /\ (diff == - (3 # 8))%Q
  /\ (hsv_2 result == 0)%Q
  /\ (Qabs (hsv_2 result - hsv_2 hsv2) == 1 # 4)%Q
  /\ (Qabs (hsv_2 result - hsv_2 hsv2) < min_diff)%Q.
Proof.
  cbv zeta. unfold valid_hsv, unit_interval.
  repeat split; vm_compute; congruence.
Qed.

(** The same pair in IEEE 754 single precision, where 1 and 1/4 are exact:
    [min_diff] is the [float] nearest to 0.28, the adjustment is -3/8, the
    value of the result is 0, and the difference 1/4 is less than
    [min_diff]. *)
Lemma OutlineColor_clamped_value_difference_float :
  let hsv1 : HSV float32 := mkHSV (sc_lit 0) (sc_lit 0) (sc_lit 1) in
  let hsv2 : HSV float32 := mkHSV (sc_lit 0) (sc_lit 0) (sc_lit 0.25) in
  let min_diff := OutlineColor_min_diff hsv1 hsv2 in
  let diff := OutlineColor_diff hsv1 hsv2 in
  let result := SaturateAndBrighten_color hsv2 (sc_lit (-0.2)) diff in
  min_diff = sc_lit 0.28
  /\ diff = sc_lit (- (3 # 8))
  /\ hsv_2 result = sc_lit 0
  /\ (sc_abs (hsv_2 result - hsv_2 hsv2) <? min_diff)%sc = true.
Proof. cbv zeta. repeat split; vm_compute; reflexivity. Qed.

(** C3, as amended, at an input, in IEEE 754 single precision: the
    adjustment for the track and the thumb colour of the arrow buttons. Both
    colours are light, so the magnitude, the number nearest to 0.28, is
    negated. *)
Lemma OutlineColor_value_adjustment_witness :
  let hsv1 : HSV float32 := SkColorToHSV (Toolkit:=float_toolkit) kTrackColor in
  let hsv2 : HSV float32 :=
    SkColorToHSV (Toolkit:=float_toolkit) kThumbInactiveColor in
  (OutlineColor_abs_diff hsv1 hsv2 <? OutlineColor_min_diff hsv1 hsv2)%sc = false
  /\ (sc_lit 0.5 <? OutlineColor_abs_diff hsv1 hsv2)%sc = false
  /\ OutlineColor_diff hsv1 hsv2 = (- sc_lit 0.28)%sc.
Proof.
  cbv zeta.
  pose proof (OutlineColor_value_adjustment (toolkit:=float_toolkit)
                (order:=float32_order) (sign:=float32_sign)
                (SkColorToHSV (Toolkit:=float_toolkit) kTrackColor)
                (SkColorToHSV (Toolkit:=float_toolkit) kThumbInactiveColor))
    as (_ & _ & Hlow & Hhigh & _).
  split; [exact Hlow |]. split; [exact Hhigh |].
  vm_compute. reflexivity.
Defined.

(** ** Text field *)

(** C4 fails as stated. On the 10 by 10 rectangle at the origin, a text
    input that is neither a text area nor a listbox has its top quad, through
    (0,0), (2,2), (8,2) and (10,0), drawn in the dark colour 0x9a9a9a and not
    in the light colour 0xeeeeee, and its bottom quad drawn in the light
    colour and not in the dark one. *)
Lemma PaintTextField_top_quad_is_dark :
  let rect := mkRect 0 0 10 10 in
  let text := mkTextField 0xFFFFFFFF false false in
  let light := mkPaint (SkColorSetRGB 0xee 0xee 0xee) kFill_Style true None in
  let dark := mkPaint (SkColorSetRGB 0x9a 0x9a 0x9a) kFill_Style true None in
  let top_quad := quad (0, 0)%Q (2, 2)%Q (8, 2)%Q (10, 0)%Q in
  let bottom_quad := quad (2, 8)%Q (0, 10)%Q (10, 10)%Q (8, 8)%Q in
  exists calls,
    Paint (SkScalar:=Q) kTextField kNormal rect (extra_text_field text)
    = Some calls
    /\ In (drawPath top_quad dark) calls
    /\ ~ In (drawPath top_quad light) calls
    /\ In (drawPath bottom_quad light) calls
    /\ ~ In (drawPath bottom_quad dark) calls.
Proof.
  cbv zeta. eexists. split; [reflexivity |].
  vm_compute. repeat split; try tauto;
    intros H; repeat (destruct H as [H | H]; [discriminate H |]); exact H.
Qed.

(** ** Push button *)

(** C5 at an input: a hovered, bordered push button on a 4 by 10
    rectangle. *)
Lemma PaintButton_small_is_flat_fill_witness :
  let rect := mkRect 0 0 4 10 in
  let button := mkButton 0xFFDDDDDD true false false in
  (rect_width rect < 5 \/ rect_height rect < 5)
  /\ Paint (SkScalar:=Q) kPushButton kHovered rect (extra_button button)
     = Some [drawRect 0%Q 0%Q 4%Q 10%Q
               (mkPaint 0xFFDDDDDD kFill_Style false None)].
Proof.
  cbv zeta.
  assert (H : rect_width (mkRect 0 0 4 10) < 5 \/ rect_height (mkRect 0 0 4 10) < 5)
    by (left; reflexivity).
  split; [exact H |].
  exact (proj1
    (PaintButton_small_is_flat_fill (SkScalar:=Q) kHovered (mkRect 0 0 4 10)
       (mkButton 0xFFDDDDDD true false false) H)).
Defined.

(** ** Slider thumb *)

(** C6 fails as stated. A 10 by 10 rectangle is at least 10 by 10, and the
    thumb painted on it has no call after the six of the halves and the box:
    none of the three ticks is drawn. *)
Lemma PaintSliderThumb_10x10_no_ticks :
  let rect := mkRect 0 0 10 10 in
  let calls := PaintSliderThumb (SkScalar:=Q) kHovered rect (mkSlider false false) in
  (10 <= rect_width rect /\ 10 <= rect_height rect)
  /\ Paint (SkScalar:=Q) kSliderThumb kHovered rect
       (extra_slider (mkSlider false false)) = Some calls
  /\ skipn 6 calls = []
  /\ skipn 6 calls <> slider_thumb_ticks rect
  /\ (forall tick, In tick (slider_thumb_ticks rect) -> ~ In tick calls).
Proof.
  cbv zeta. repeat split; try (vm_compute; congruence).
  intros tick Ht. vm_compute in Ht. vm_compute.
  intros H.
  repeat (destruct Ht as [Ht | Ht]; [subst tick |]); try exact Ht;
    repeat (destruct H as [H | H]; [discriminate H |]); exact H.
Qed.

(** ** Checkbox and radio button *)

(** C10 at an input: a hovered and a pressed checkbox and radio button. *)
Lemma Paint_Checkbox_Radio_enabled_states_witness :
  let rect := mkRect 0 0 20 20 in
  let button := mkButton 0xFFFFFFFF false true false in
  (kHovered <> kDisabled /\ kPressed <> kDisabled)
  /\ Paint (SkScalar:=Q) kCheckbox kHovered rect (extra_button button)
     = Paint kCheckbox kPressed rect (extra_button button)
  /\ Paint (SkScalar:=Q) kRadio kHovered rect (extra_button button)
     = Paint kRadio kPressed rect (extra_button button).
Proof.
  cbv zeta.
  assert (H1 : kHovered <> kDisabled) by discriminate.
  assert (H2 : kPressed <> kDisabled) by discriminate.
  split; [split; assumption |].
  pose proof (Paint_Checkbox_Radio_enabled_states (SkScalar:=Q)
                kHovered kPressed (mkRect 0 0 20 20)
                (mkButton 0xFFFFFFFF false true false) H1 H2) as H.
  exact (conj (proj1 (proj2 (proj2 H))) (proj1 (proj2 (proj2 (proj2 H))))).
Defined.

End Runs.

(** * Further properties of the renderer *)

(** The pixels of an integer rectangle, as inequalities. *)
Lemma irect_covers_iff (l t r b px py : Z) :
  irect_covers l t r b px py = true <-> l <= px < r /\ t <= py < b.
Proof.
  unfold irect_covers. rewrite !andb_true_iff, !Z.leb_le, !Z.ltb_lt. lia.
Qed.

Lemma irect_covers_false_iff (l t r b px py : Z) :
  irect_covers l t r b px py = false <-> ~ (l <= px < r /\ t <= py < b).
Proof.
  rewrite <- irect_covers_iff. symmetry. apply not_true_iff_false.
Qed.

(** Half a non-negative [int]. *)
Lemma quot2_bounds (n : Z) : 0 <= n -> 0 <= n ÷ 2 /\ n - 1 <= 2 * (n ÷ 2) <= n.
Proof.
  intros Hn. rewrite Z.quot_div_nonneg by lia.
  pose proof (Z.div_mod n 2 ltac:(lia)). pose proof (Z.mod_pos_bound n 2 ltac:(lia)).
  lia.
Qed.

(** ** Lines, boxes and the pixels they cover *)

Section Pixels.

Context {SkScalar : Type}.

(** Coverage by a list of calls, as inequalities. *)
Ltac pixels :=
  unfold covered; cbn [existsb call_covers app];
  rewrite ?orb_false_r, ?orb_true_iff, ?irect_covers_iff.

(** X5. A horizontal line from [a] to [b] in row [c] covers exactly the
    pixels of that row from [a] to [b], both ends included, and none when
    [b] is less than [a]; a vertical line in column [a] from [b] to [c]
    likewise. *)
Theorem DrawLine_covers_inclusive (a b c : Z) (paint : SkPaint SkScalar) :
  forall px py : Z,
    (covered (DrawHorizLine a b c paint) px py = true
     <-> py = c /\ a <= px <= b)
    /\ (covered (DrawVertLine a b c paint) px py = true
        <-> px = a /\ b <= py <= c).
Proof.
  intros px py. unfold DrawHorizLine, DrawVertLine. pixels. lia.
Qed.

(** X6. On a rectangle at least 1 wide and 1 high, [DrawBox] covers exactly
    the pixels of the rectangle that lie in its first or last column or in
    its first or last row, and draws its four lines with the paint it is
    given. *)
Theorem DrawBox_covers_border (rect : Rect) (paint : SkPaint SkScalar) :
  1 <= rect_width rect -> 1 <= rect_height rect ->
  (forall px py : Z,
     covered (DrawBox rect paint) px py = true
     <-> in_rect rect px py = true
         /\ (px = rect_x rect \/ px = rect_x rect + rect_width rect - 1
             \/ py = rect_y rect \/ py = rect_y rect + rect_height rect - 1))
  /\ Forall (fun c => call_paint c = Some paint) (DrawBox rect paint).
Proof.
  intros Hw Hh. split.
  - intros px py.
    unfold DrawBox, DrawHorizLine, DrawVertLine, in_rect, rect_right, rect_bottom.
    pixels. lia.
  - unfold DrawBox, DrawHorizLine, DrawVertLine. simpl. repeat constructor.
Qed.

(** X7. On a rectangle at least 1 wide and 1 high, every call of
    [PaintSliderThumb] is an integer rectangle fill, no call covers a pixel
    outside the rectangle, and every pixel of the rectangle is covered by
    exactly one of the first two calls, the two halves. *)
Theorem PaintSliderThumb_stays_in_rect (state : State) (rect : Rect)
    (slider : SliderExtraParams) :
  1 <= rect_width rect -> 1 <= rect_height rect ->
  let calls := PaintSliderThumb (SkScalar:=SkScalar) state rect slider in
  forallb is_drawIRect calls = true
  /\ (forall px py : Z,
        covered calls px py = true -> in_rect rect px py = true)
  /\ (exists first_half second_half rest,
        calls = first_half :: second_half :: rest
        /\ forall px py : Z,
             in_rect rect px py = true ->
             xorb (call_covers first_half px py)
                  (call_covers second_half px py) = true).
Proof.
  intros Hw Hh. cbv zeta.
  pose proof (quot2_bounds (rect_width rect) ltac:(lia)) as Qw.
  pose proof (quot2_bounds (rect_height rect) ltac:(lia)) as Qh.
  unfold PaintSliderThumb, DrawBox, DrawHorizLine, DrawVertLine,
    in_rect, rect_right, rect_bottom.
  set (mx := rect_width rect ÷ 2) in *. set (my := rect_height rect ÷ 2) in *.
  split; [| split].
  - destruct (vertical slider),
      ((rect_height rect >? 10) && (rect_width rect >? 10)); reflexivity.
  - intros px py.
    destruct (rect_height rect >? 10) eqn:H10h;
      destruct (rect_width rect >? 10) eqn:H10w;
      rewrite Z.gtb_ltb in H10h, H10w;
      rewrite ?Z.ltb_lt, ?Z.ltb_ge in H10h, H10w;
      destruct (vertical slider); cbn [andb]; pixels; lia.
  - destruct (vertical slider); do 3 eexists; (split; [reflexivity |]);
      intros px py; cbn [call_covers]; rewrite irect_covers_iff; intros Hin;
      match goal with
      | |- xorb ?a ?b = true =>
          destruct a eqn:A; destruct b eqn:B; try reflexivity; exfalso;
          rewrite ?irect_covers_iff, ?irect_covers_false_iff in A, B; lia
      end.
Qed.

(** X21. On a rectangle that is at least 1 wide and has no height, which
    has no pixel, [PaintSliderThumb] still covers the pixel at the origin of
    the rectangle: the top line of the box is drawn there. *)
Theorem PaintSliderThumb_empty_rect_spills (state : State) (rect : Rect)
    (slider : SliderExtraParams) :
  1 <= rect_width rect -> rect_height rect = 0 ->
  (forall px py : Z, in_rect rect px py = false)
  /\ covered (PaintSliderThumb (SkScalar:=SkScalar) state rect slider)
       (rect_x rect) (rect_y rect) = true.
Proof.
  intros Hw Hh. split.
  - intros px py. unfold in_rect, rect_bottom. rewrite Hh.
    apply irect_covers_false_iff. lia.
  - unfold PaintSliderThumb, DrawBox, DrawHorizLine, DrawVertLine.
    rewrite Hh.
    replace ((0 >? 10) && (rect_width rect >? 10)) with false by reflexivity.
    destruct (vertical slider); pixels; lia.
Qed.

End Pixels.

(** ** What the paint routines depend on *)

Section Dependence.

Context {SkScalar double : Type}.
Context {scalar_ops : ScalarOps SkScalar} {double_ops : ScalarOps double}.
Context {conversion : Conversion SkScalar double}.
Context {toolkit : Toolkit SkScalar double}.

(** X8. On a rectangle of non-negative width and height, [Paint] of a slider
    track is one fill, in the track colour, of a band inside the rectangle:
    as long as the rectangle along the track and, across it, 4 thick or as
    thick as the rectangle when that is less. *)
Theorem PaintSliderTrack_band (state : State) (rect : Rect)
    (slider : SliderExtraParams) :
  0 <= rect_width rect -> 0 <= rect_height rect ->
  exists left top right bottom : Z,
    Paint kSliderTrack state rect (extra_slider slider)
    = Some [drawRect (SkIntToScalar left) (SkIntToScalar top)
              (SkIntToScalar right) (SkIntToScalar bottom)
              (mkPaint kSliderTrackBackgroundColor kFill_Style false None)]
    /\ rect_x rect <= left <= right /\ right <= rect_right rect
    /\ rect_y rect <= top <= bottom /\ bottom <= rect_bottom rect
    /\ (if vertical slider
        then top = rect_y rect /\ bottom = rect_bottom rect
             /\ right - left = Z.min (rect_width rect) 4
        else left = rect_x rect /\ right = rect_right rect
             /\ bottom - top = Z.min (rect_height rect) 4).
Proof.
  intros Hw Hh.
  pose proof (quot2_bounds (rect_width rect) Hw) as Qw.
  pose proof (quot2_bounds (rect_height rect) Hh) as Qh.
  simpl. unfold PaintSliderTrack, rect_right, rect_bottom.
  destruct (vertical slider); do 4 eexists; (split; [reflexivity |]); lia.
Qed.

(** X9. A push button is painted in the state Disabled exactly as in the
    state Normal; without a border it is painted in the state Hovered as in
    the state Normal too; and [checked] and [indeterminate] have no effect
    on it. *)
Theorem PaintButton_state_dependence (state : State) (rect : Rect)
    (background_color : SkColor) (border is_checked is_indeterminate : bool) :
  Paint kPushButton kDisabled rect
    (extra_button (mkButton background_color border is_checked is_indeterminate))
  = Paint kPushButton kNormal rect
      (extra_button (mkButton background_color border is_checked is_indeterminate))
  /\ Paint kPushButton kHovered rect
       (extra_button (mkButton background_color false is_checked is_indeterminate))
     = Paint kPushButton kNormal rect
         (extra_button (mkButton background_color false is_checked is_indeterminate))
  /\ Paint kPushButton state rect
       (extra_button (mkButton background_color border is_checked is_indeterminate))
     = Paint kPushButton state rect
         (extra_button (mkButton background_color border false false)).
Proof. repeat split. Qed.

(** X10. A push button of at least 5 by 5 constructs exactly one gradient,
    from the lightened background colour to the background colour, running
    from the top of the rectangle to its last row, and from the last row to
    the top when the state is Pressed. Exactly one call draws with a shader:
    the fill of the rectangle, inset by 1 when the button has a border, by
    that gradient. A border adds eight calls, four lines and four points,
    none of them with a shader. *)
Theorem PaintButton_gradient (state : State) (rect : Rect)
    (button : ButtonExtraParams) :
  5 <= rect_width rect -> 5 <= rect_height rect ->
  let base_color := button_background_color button in
  let light_color :=
    BrightenColor (SkColorToHSL base_color) (SkColorGetA base_color)
      (sc_lit 0.105) in
  let top := (SkIntToScalar (rect_x rect), SkIntToScalar (rect_y rect)) in
  let bottom :=
    (SkIntToScalar (rect_x rect), SkIntToScalar (rect_bottom rect - 1)) in
  let shader :=
    match state with
    | kPressed => mkGradient bottom top light_color base_color
    | _ => mkGradient top bottom light_color base_color
    end in
  let inset := if has_border button then 1 else 0 in
  let calls := PaintButton state rect button in
  filter uses_gradient calls
  = [ CreateLinear shader;
      drawRect (SkIntToScalar (rect_x rect + inset))
               (SkIntToScalar (rect_y rect + inset))
               (SkIntToScalar (rect_right rect - inset))
               (SkIntToScalar (rect_bottom rect - inset))
               (mkPaint SK_ColorBLACK kFill_Style false (Some shader)) ]
  /\ length (filter is_border_or_corner calls)
     = (if has_border button then 8%nat else 0%nat)
  /\ length calls = (if has_border button then 10%nat else 2%nat).
Proof.
  intros Hw Hh. cbv zeta. unfold PaintButton.
  assert (Hb : (rect_width rect <? 5) || (rect_height rect <? 5) = false).
  { apply orb_false_iff. rewrite !Z.ltb_ge. split; assumption. }
  rewrite Hb.
  destruct (has_border button); destruct state; cbn;
    rewrite ?Z.add_0_r, ?Z.sub_0_r; repeat split.
Qed.


(** X12. [Paint] of a text field, of a slider track and of a progress bar
    does not depend on the state; a slider track does not depend on
    [in_drag] either, and a text area does not depend on [is_listbox]. *)
Theorem Paint_ignores_state (state1 state2 : State) (rect : Rect)
    (text : TextFieldExtraParams) (slider : SliderExtraParams)
    (progress_bar : ProgressBarExtraParams) :
  Paint kTextField state1 rect (extra_text_field text)
  = Paint kTextField state2 rect (extra_text_field text)
  /\ Paint kSliderTrack state1 rect (extra_slider slider)
     = Paint kSliderTrack state2 rect (extra_slider slider)
  /\ Paint kProgressBar state1 rect (extra_progress_bar progress_bar)
     = Paint kProgressBar state2 rect (extra_progress_bar progress_bar)
  /\ Paint kSliderTrack state1 rect (extra_slider slider)
     = Paint kSliderTrack state2 rect
         (extra_slider (mkSlider (vertical slider) (negb (in_drag slider))))
  /\ Paint kTextField state1 rect
       (extra_text_field (mkTextField (text_background_color text) true true))
     = Paint kTextField state2 rect
         (extra_text_field (mkTextField (text_background_color text) true false)).
Proof. repeat split. Qed.

(** X13. A slider thumb in drag is painted, in every state, as a hovered
    thumb that is not in drag; a thumb that is neither hovered nor in drag
    is painted as in the state Normal. *)
Theorem PaintSliderThumb_hover_or_drag (state : State) (rect : Rect)
    (is_vertical : bool) :
  Paint kSliderThumb state rect (extra_slider (mkSlider is_vertical true))
  = Paint kSliderThumb kHovered rect (extra_slider (mkSlider is_vertical false))
  /\ (state <> kHovered ->
      Paint kSliderThumb state rect (extra_slider (mkSlider is_vertical false))
      = Paint kSliderThumb kNormal rect
          (extra_slider (mkSlider is_vertical false))).
Proof.
  split.
  - simpl. unfold PaintSliderThumb. simpl. now rewrite orb_true_r.
  - intros H. destruct state; try reflexivity. congruence.
Qed.

End Dependence.

(** ** Halves, flags and sizes *)

Section Halves.

Context {SkScalar double : Type}.
Context {scalar_ops : ScalarOps SkScalar} {double_ops : ScalarOps double}.
Context {conversion : Conversion SkScalar double}.
Context {toolkit : Toolkit SkScalar double}.

(** X14. On a rectangle of non-negative height, an inner spin button is
    painted by eight calls, four for each arrow. The backgrounds of the two
    arrows are as wide as the rectangle, the upper one from its top down to
    half its height and the lower one from there down by the same amount:
    together they cover every row of the rectangle except the last row of a
    rectangle of odd height. *)
Theorem PaintInnerSpinButton_halves_geometry (state : State) (rect : Rect)
    (spin_button : InnerSpinButtonExtraParams) :
  0 <= rect_height rect ->
  let calls := PaintInnerSpinButton state rect spin_button in
  length calls = 8%nat
  /\ (exists upper_paint lower_paint,
        nth_error calls 0
        = Some (drawIRect (rect_x rect) (rect_y rect) (rect_right rect)
                  (rect_y rect + rect_height rect ÷ 2) upper_paint)
        /\ nth_error calls 4
           = Some (drawIRect (rect_x rect) (rect_y rect + rect_height rect ÷ 2)
                     (rect_right rect)
                     (rect_bottom rect - rect_height rect mod 2) lower_paint))
  /\ (forall px py,
        covered (filter is_drawIRect calls) px py
        = in_rect rect px py
          && (py <? rect_bottom rect - rect_height rect mod 2)).
Proof.
  intros Hh. cbv zeta.
  assert (Hq : rect_height rect ÷ 2 + rect_height rect ÷ 2
               = rect_height rect - rect_height rect mod 2).
  { rewrite Z.quot_div_nonneg by lia.
    pose proof (Z.div_mod (rect_height rect) 2 ltac:(lia)). lia. }
  pose proof (Z.mod_pos_bound (rect_height rect) 2 ltac:(lia)) as Hm.
  pose proof (quot2_bounds _ Hh) as Hq2.
  rewrite PaintInnerSpinButton_halves.
  unfold PaintArrowButton, upper_half, lower_half, rect_right, rect_bottom.
  cbn [rect_x rect_y rect_width rect_height app length nth_error filter
       is_drawIRect].
  split; [reflexivity |]. split.
  - do 2 eexists. split; [reflexivity |]. f_equal. f_equal. lia.
  - intros px py. unfold covered, in_rect, rect_right, rect_bottom.
    cbn [existsb call_covers rect_x rect_y rect_width rect_height].
    rewrite orb_false_r.
    apply eq_true_iff_eq.
    rewrite orb_true_iff, andb_true_iff, !irect_covers_iff, Z.ltb_lt. lia.
Qed.

(** X15. An indeterminate checkbox is painted the same whether checked or
    not, and a radio button is painted the same whether indeterminate or
    not; neither depends on the background colour or on the border. Two
    checkboxes get the same image exactly when they agree on being disabled,
    on being indeterminate and, unless indeterminate, on being checked; two
    radio buttons, exactly when they agree on being disabled and on being
    checked; and no checkbox image is a radio image. *)
Theorem checkbox_and_radio_flags (state : State) (rect : Rect)
    (button other : ButtonExtraParams) :
  let disabled s := State_eqb s kDisabled in
  (indeterminate button = true -> indeterminate other = true ->
   Paint kCheckbox state rect (extra_button button)
   = Paint kCheckbox state rect (extra_button other))
  /\ (indeterminate button = false -> indeterminate other = false ->
      checked button = checked other ->
      Paint kCheckbox state rect (extra_button button)
      = Paint kCheckbox state rect (extra_button other))
  /\ (checked button = checked other ->
      Paint kRadio state rect (extra_button button)
      = Paint kRadio state rect (extra_button other))
  /\ (forall state',
        checkbox_image state button = checkbox_image state' other
        <-> disabled state = disabled state'
            /\ indeterminate button = indeterminate other
            /\ (indeterminate button = false -> checked button = checked other))
  /\ (forall state',
        radio_image state button = radio_image state' other
        <-> disabled state = disabled state'
            /\ checked button = checked other)
  /\ checkbox_image state button <> radio_image state other.
Proof.
  cbv zeta. simpl. unfold PaintCheckbox, PaintRadio, checkbox_image, radio_image.
  split; [intros -> ->; reflexivity |].
  split; [intros -> -> ->; reflexivity |].
  split; [intros ->; reflexivity |].
  split; [| split; [| ]].
  - intros state'.
    destruct state, state', (indeterminate button), (indeterminate other),
      (checked button), (checked other); simpl;
      (split; [intros H; try discriminate H; auto | intros (H1 & H2 & H3)]);
      try discriminate; try reflexivity; try (specialize (H3 eq_refl); discriminate).
  - intros state'.
    destruct state, state', (checked button), (checked other); simpl;
      (split; [intros H; try discriminate H; auto | intros (H1 & H2)]);
      try discriminate; try reflexivity.
  - destruct state, (indeterminate button), (checked button), (checked other);
      discriminate.
Qed.

End Halves.

(** X16. [GetPartSize] depends on the part alone. Its size is empty exactly
    for the push button, the text field, the menu list, the slider track
    and the progress bar; the width is positive for every other part and the
    height for every other part but the inner spin button; and the size of
    a horizontal scrollbar arrow is the one of a vertical arrow with width
    and height exchanged. *)
Theorem GetPartSize_table (part : Part) (state state' : State)
    (extra extra' : ExtraParams) :
  GetPartSize part state extra = GetPartSize part state' extra'
  /\ (GetPartSize part state extra = mkSize 0 0 <-> In part empty_size_parts)
  /\ (0 < size_width (GetPartSize part state extra)
      <-> ~ In part empty_size_parts)
  /\ (0 < size_height (GetPartSize part state extra)
      <-> In part fixed_size_parts)
  /\ size_width (GetPartSize kScrollbarLeftArrow state extra)
     = size_height (GetPartSize kScrollbarUpArrow state extra)
  /\ size_height (GetPartSize kScrollbarLeftArrow state extra)
     = size_width (GetPartSize kScrollbarUpArrow state extra).
Proof.
  split; [reflexivity |].
  destruct part; simpl; repeat split; intros; try discriminate; try lia;
    try reflexivity; intuition (try discriminate; try lia).
Qed.

(** ** The colour adjuster in exact arithmetic *)

(** Case analysis on the comparisons of a goal, innermost first. *)
Ltac case_Qltb :=
  repeat match goal with
         | |- context [Qltb ?a ?b] =>
             lazymatch a with context [Qltb _ _] => fail | _ => idtac end;
             lazymatch b with context [Qltb _ _] => fail | _ => idtac end;
             let H := fresh "H" in
             destruct (Qltb a b) eqn:H;
             [apply Qltb_lt in H | apply Qltb_ge in H]; cbv iota
         end.

Section ExactColour.

Context {toolkit : Toolkit Q Q}.

Local Open Scope Q_scope.

(** X1. In exact arithmetic, [BrightenColor] hands [HSLToSkColor] the hue,
    the saturation and the alpha it was given and a lightness in the unit
    interval: the lightness plus the amount when that lies in the unit
    interval, 1 when it is above and 0 when it is below. *)
Theorem BrightenColor_lightness_clamped (hsl : HSL Q) (alpha : SkAlpha)
    (lightness_amount : Q) :
  let adjusted := BrightenColor_adjusted hsl lightness_amount in
  BrightenColor hsl alpha lightness_amount = HSLToSkColor adjusted alpha
  /\ hsl_h adjusted = hsl_h hsl
  /\ hsl_s adjusted = hsl_s hsl
  /\ 0 <= hsl_l adjusted <= 1
  /\ (0 <= hsl_l hsl + lightness_amount <= 1 ->
      hsl_l adjusted = hsl_l hsl + lightness_amount)
  /\ (1 < hsl_l hsl + lightness_amount -> hsl_l adjusted == 1)
  /\ (hsl_l hsl + lightness_amount < 0 -> hsl_l adjusted == 0).
Proof.
  cbv zeta. split; [reflexivity |]. split; [reflexivity |]. split; [reflexivity |].
  unfold BrightenColor_adjusted. cbn [hsl_l sc_ltb sc_add sc_lit Q_ops].
  destruct (Qltb 1.0 (hsl_l hsl + lightness_amount)) eqn:H1.
  - apply Qltb_lt in H1. change (Qltb 1.0 0.0) with false. cbv iota.
    repeat split; intros; solve [lra | exfalso; lra].
  - apply Qltb_ge in H1.
    destruct (Qltb (hsl_l hsl + lightness_amount) 0.0) eqn:H2.
    + apply Qltb_lt in H2.
      repeat split; intros; solve [lra | exfalso; lra].
    + apply Qltb_ge in H2.
      repeat split; intros; solve [lra | reflexivity | exfalso; lra].
Qed.

(** X2. In exact arithmetic, [SaturateAndBrighten] hands [SkHSVToColor] the
    hue it was given and a saturation and a value in the unit interval,
    whatever the triple and the amounts are; each is the channel plus its
    amount when that lies in the unit interval, and the value does not
    decrease when the brightening amount grows. *)
Theorem SaturateAndBrighten_color_valid (hsv : HSV Q)
    (saturate_amount brighten_amount : Q) :
  let color := SaturateAndBrighten_color hsv saturate_amount brighten_amount in
  SaturateAndBrighten hsv saturate_amount brighten_amount = SkHSVToColor color
  /\ hsv_0 color = hsv_0 hsv
  /\ valid_hsv color
  /\ (0 <= hsv_1 hsv + saturate_amount <= 1 ->
      hsv_1 color = hsv_1 hsv + saturate_amount)
  /\ (0 <= hsv_2 hsv + brighten_amount <= 1 ->
      hsv_2 color = hsv_2 hsv + brighten_amount)
  /\ (forall more, brighten_amount <= more ->
      hsv_2 color <= hsv_2 (SaturateAndBrighten_color hsv saturate_amount more)).
Proof.
  cbv zeta. split; [reflexivity |]. split; [reflexivity |].
  unfold valid_hsv, unit_interval, SaturateAndBrighten_color.
  cbn [hsv_1 hsv_2 sc_add sc_lit Q_ops].
  pose proof (fun v => Clamp_Q_bounds v 0.0 1.0) as Hb.
  split; [| split; [| split]].
  - split.
    + specialize (Hb (hsv_1 hsv + saturate_amount)). lra.
    + specialize (Hb (hsv_2 hsv + brighten_amount)). lra.
  - intros H. apply Clamp_Q_inside. lra.
  - intros H. apply Clamp_Q_inside. lra.
  - intros more Hmore. unfold Clamp, std_min, std_max. cbn [sc_ltb Q_ops].
    case_Qltb; lra.
Qed.

(** X3. In exact arithmetic, [Clamp] never exceeds [max]; it is at least
    [min] when the bounds are in order, and it is [max] for every value when
    [max] is less than [min]. It is idempotent and returns one of its three
    arguments. *)
Theorem Clamp_edge_cases (value min max : Q) :
  Clamp value min max <= max
  /\ (min <= max -> min <= Clamp value min max)
  /\ (max < min -> Clamp value min max = max)
  /\ Clamp (Clamp value min max) min max = Clamp value min max
  /\ (Clamp value min max = value \/ Clamp value min max = min
      \/ Clamp value min max = max).
Proof.
  unfold Clamp, std_min, std_max. cbn [sc_ltb Q_ops].
  case_Qltb;
    repeat split; intros; solve [lra | reflexivity | auto | exfalso; lra].
Qed.

(** X4. In exact arithmetic, the adjustment of [OutlineColor] is 0.5 in
    absolute value whenever the two saturations sum to 5/12 or more,
    whatever the values are. When the saturations sum to so little that
    1.2 times the sum is at most 0.28, the adjustment is 0.28 in absolute
    value for values that differ by at most 0.56, and half the difference of
    the values for values that differ by more. *)
Theorem OutlineColor_adjustment_regimes (hsv1 hsv2 : HSV Q) :
  (5 # 12 <= hsv_1 hsv1 + hsv_1 hsv2 ->
   Qabs (OutlineColor_diff hsv1 hsv2) == 0.5)
  /\ ((hsv_1 hsv1 + hsv_1 hsv2) * 1.2 <= 0.28 ->
      Qabs (hsv_2 hsv1 - hsv_2 hsv2) <= 0.56 ->
      Qabs (OutlineColor_diff hsv1 hsv2) == 0.28)
  /\ ((hsv_1 hsv1 + hsv_1 hsv2) * 1.2 <= 0.28 ->
      0.56 <= Qabs (hsv_2 hsv1 - hsv_2 hsv2) <= 1 ->
      Qabs (OutlineColor_diff hsv1 hsv2) == Qabs (hsv_2 hsv1 - hsv_2 hsv2) / 2).
Proof.
  assert (Hm : 0.28 <= OutlineColor_min_diff hsv1 hsv2 <= 0.5)
    by (apply Clamp_Q_bounds; cbn [sc_lit Q_ops]; lra).
  assert (Ha : OutlineColor_min_diff hsv1 hsv2
               <= OutlineColor_abs_diff hsv1 hsv2 <= 0.5)
    by (apply Clamp_Q_bounds; apply Hm).
  assert (Habs : Qabs (OutlineColor_diff hsv1 hsv2)
                 == OutlineColor_abs_diff hsv1 hsv2).
  { unfold OutlineColor_diff.
    destruct (to_double (hsv_2 hsv1 + hsv_2 hsv2) >? sc_lit 1.0)%sc.
    - cbn [sc_opp Q_ops]. rewrite Qabs_opp. apply Qabs_pos. lra.
    - apply Qabs_pos. lra. }
  rewrite Habs. clear Hm Ha Habs.
  unfold OutlineColor_abs_diff, OutlineColor_min_diff, Clamp, std_min, std_max.
  cbn [sc_ltb sc_lit sc_add sc_sub sc_mul sc_div sc_abs Q_ops
       to_double of_double Q_conversion].
  unfold Qdiv. change (/ 2) with (1 # 2).
  generalize (Qabs (hsv_2 hsv1 - hsv_2 hsv2)). intros d.
  repeat split; intros; case_Qltb; lra.
Qed.

End ExactColour.

(** ** Paths in exact arithmetic *)

(** Integers of a goal as rationals. *)
Ltac push_inject_Z :=
  unfold Z.sub;
  repeat first [ rewrite inject_Z_plus | rewrite inject_Z_opp ];
  repeat match goal with
         | |- context [inject_Z 0] => change (inject_Z 0) with (0 # 1)
         | |- context [inject_Z (Z.pos ?p)] =>
             change (inject_Z (Z.pos p)) with (Z.pos p # 1)
         | |- context [inject_Z (Z.neg ?p)] =>
             change (inject_Z (Z.neg p)) with (Z.neg p # 1)
         end.

Section ExactGeometry.

Context {toolkit : Toolkit Q Q}.

Local Open Scope Q_scope.

(** X17. In exact arithmetic, the outline of the up arrow goes through the
    points of the outline of the down arrow mirrored in the horizontal axis
    through the centre of the rectangle, in the same order, and the outline
    of the left arrow through those of the right arrow mirrored in the
    vertical axis. *)
Theorem arrow_outline_mirrored (rect : Rect) :
  points_eq (path_points (arrow_outline rect kScrollbarUpArrow))
            (map (flip_vertically rect)
               (path_points (arrow_outline rect kScrollbarDownArrow)))
  /\ points_eq (path_points (arrow_outline rect kScrollbarLeftArrow))
               (map (flip_horizontally rect)
                  (path_points (arrow_outline rect kScrollbarRightArrow))).
Proof.
  unfold points_eq, path_points, arrow_outline, flip_vertically,
    flip_horizontally, rect_right, rect_bottom, SkIntToScalar, int_to_double.
  cbn [app path_points_from map fst snd sc_add sc_sub sc_lit Q_ops of_double
       to_double Q_conversion].
  split; repeat constructor; cbn [fst snd]; push_inject_Z; ring.
Qed.

(** X18. In exact arithmetic, on a rectangle at least 2 wide and 2 high,
    every point of the outline of an arrow button lies within half a pixel
    of the rectangle. *)
Theorem arrow_outline_within_half_pixel (rect : Rect) (direction : Part) :
  (2 <= rect_width rect)%Z -> (2 <= rect_height rect)%Z ->
  Forall (fun p =>
            inject_Z (rect_x rect) - 0.5 <= fst p
            /\ fst p <= inject_Z (rect_right rect) + 0.5
            /\ inject_Z (rect_y rect) - 0.5 <= snd p
            /\ snd p <= inject_Z (rect_bottom rect) + 0.5)
         (path_points (arrow_outline rect direction)).
Proof.
  intros Hw Hh.
  assert (Hw' : 2 <= inject_Z (rect_width rect))
    by (change 2 with (inject_Z 2); rewrite <- Zle_Qle; exact Hw).
  assert (Hh' : 2 <= inject_Z (rect_height rect))
    by (change 2 with (inject_Z 2); rewrite <- Zle_Qle; exact Hh).
  unfold path_points, arrow_outline, rect_right, rect_bottom, SkIntToScalar,
    int_to_double.
  destruct direction;
    cbn [app path_points_from map fst snd sc_add sc_sub sc_lit Q_ops of_double
         to_double Q_conversion];
    repeat (first [apply Forall_nil | apply Forall_cons | split]);
    cbn [fst snd]; push_inject_Z; lra.
Qed.

End ExactGeometry.

(** ** Menu list in exact arithmetic *)

Section ExactMenuList.

Context {toolkit : Toolkit Q Q}.

Local Open Scope Q_scope.

(** X20. [Paint] of a menu list is [Paint] of a push button with the
    background colour and the border of the menu list, unchecked, followed
    by one call; with a border radius it is that call alone. The call fills,
    in black, the triangle with the corners (x, y - 3), (x + 6, y - 3) and
    (x + 3, y + 3), where (x, y) is the given position of the arrow,
    whatever the rectangle is. *)
Theorem PaintMenuList_chrome_and_arrow (state : State) (rect : Rect)
    (menu_list : MenuListExtraParams) :
  exists arrow,
    Paint kMenuList state rect (extra_menu_list menu_list)
    = option_map (fun chrome => chrome ++ [arrow])
        (if has_border_radius menu_list then Some []
         else Paint kPushButton state rect
                (extra_button (menu_list_button menu_list)))
    /\ call_paint arrow = Some (mkPaint SK_ColorBLACK kFill_Style true None)
    /\ points_eq (path_points (call_path arrow))
         [ (inject_Z (arrow_x menu_list), inject_Z (arrow_y menu_list) - 3);
           (inject_Z (arrow_x menu_list) + 6, inject_Z (arrow_y menu_list) - 3);
           (inject_Z (arrow_x menu_list) + 3, inject_Z (arrow_y menu_list) + 3) ].
Proof.
  eexists. split; [| split].
  - simpl. unfold PaintMenuList, menu_list_button.
    destruct (has_border_radius menu_list); reflexivity.
  - reflexivity.
  - unfold points_eq, path_points, SkIntToScalar.
    cbn [call_path path_points_from fst snd sc_add sc_lit Q_ops].
    repeat constructor; cbn [fst snd]; unfold Z.sub;
      rewrite ?inject_Z_plus, ?inject_Z_opp;
      change (inject_Z 3) with 3; change (inject_Z 6) with 6;
      change (inject_Z 0) with 0; change (inject_Z (-3)) with (-3)%Q; ring.
Qed.

End ExactMenuList.

(** ** The further properties at concrete inputs *)

Section FurtherRuns.

#[local] Existing Instance grey_toolkit.

(** X6 at an input: the box of the 3 by 2 rectangle at the origin covers
    the pixel (2, 1), its lower right corner. *)
Lemma DrawBox_covers_border_witness :
  (1 <= rect_width (mkRect 0 0 3 2) /\ 1 <= rect_height (mkRect 0 0 3 2))
  /\ covered (DrawBox (SkScalar:=Q) (mkRect 0 0 3 2) SkPaint_new) 2 1 = true.
Proof.
  assert (Hw : 1 <= rect_width (mkRect 0 0 3 2)) by (simpl; lia).
  assert (Hh : 1 <= rect_height (mkRect 0 0 3 2)) by (simpl; lia).
  split; [split; assumption |].
  apply (proj1 (DrawBox_covers_border (SkScalar:=Q) (mkRect 0 0 3 2)
                  SkPaint_new Hw Hh)).
  split; [reflexivity | right; left; reflexivity].
Defined.

(** X7 at an input: the thumb of the default size, 11 by 21. *)
Lemma PaintSliderThumb_stays_in_rect_witness :
  (1 <= rect_width (mkRect 0 0 11 21) /\ 1 <= rect_height (mkRect 0 0 11 21))
  /\ forallb is_drawIRect
       (PaintSliderThumb (SkScalar:=Q) kNormal (mkRect 0 0 11 21)
          (mkSlider false false)) = true.
Proof.
  assert (Hw : 1 <= rect_width (mkRect 0 0 11 21)) by (simpl; lia).
  assert (Hh : 1 <= rect_height (mkRect 0 0 11 21)) by (simpl; lia).
  split; [split; assumption |].
  exact (proj1 (PaintSliderThumb_stays_in_rect (SkScalar:=Q) kNormal
                  (mkRect 0 0 11 21) (mkSlider false false) Hw Hh)).
Defined.

(** X21 at an input: a thumb on the rectangle 5 wide and 0 high at the
    origin covers the pixel (0, 0). *)
Lemma PaintSliderThumb_empty_rect_spills_witness :
  (1 <= rect_width (mkRect 0 0 5 0) /\ rect_height (mkRect 0 0 5 0) = 0)
  /\ covered (PaintSliderThumb (SkScalar:=Q) kNormal (mkRect 0 0 5 0)
                (mkSlider false false)) 0 0 = true.
Proof.
  assert (Hw : 1 <= rect_width (mkRect 0 0 5 0)) by (simpl; lia).
  assert (Hh : rect_height (mkRect 0 0 5 0) = 0) by reflexivity.
  split; [split; assumption |].
  exact (proj2 (PaintSliderThumb_empty_rect_spills (SkScalar:=Q) kNormal
                  (mkRect 0 0 5 0) (mkSlider false false) Hw Hh)).
Defined.

(** X8 at an input: a horizontal track on a 100 by 20 rectangle is a band
    of 4 rows. *)
Lemma PaintSliderTrack_band_witness :
  (0 <= rect_width (mkRect 0 0 100 20) /\ 0 <= rect_height (mkRect 0 0 100 20))
  /\ exists left top right bottom : Z,
       Paint (SkScalar:=Q) kSliderTrack kNormal (mkRect 0 0 100 20)
         (extra_slider (mkSlider false false))
       = Some [drawRect (inject_Z left) (inject_Z top) (inject_Z right)
                 (inject_Z bottom)
                 (mkPaint kSliderTrackBackgroundColor kFill_Style false None)]
       /\ bottom - top = 4.
Proof.
  assert (Hw : 0 <= rect_width (mkRect 0 0 100 20)) by (simpl; lia).
  assert (Hh : 0 <= rect_height (mkRect 0 0 100 20)) by (simpl; lia).
  split; [split; assumption |].
  destruct (PaintSliderTrack_band (SkScalar:=Q) kNormal (mkRect 0 0 100 20)
              (mkSlider false false) Hw Hh)
    as (left & top & right & bottom & Hcalls & _ & _ & _ & _ & _ & _ & Hband).
  exists left, top, right, bottom. split; [exact Hcalls | exact Hband].
Defined.

(** X10 at an input: a pressed, bordered push button on a 20 by 10
    rectangle issues ten calls. *)
Lemma PaintButton_gradient_witness :
  (5 <= rect_width (mkRect 0 0 20 10) /\ 5 <= rect_height (mkRect 0 0 20 10))
  /\ length (PaintButton (SkScalar:=Q) kPressed (mkRect 0 0 20 10)
               (mkButton 0xFFDDDDDD true false false)) = 10%nat.
Proof.
  assert (Hw : 5 <= rect_width (mkRect 0 0 20 10)) by (simpl; lia).
  assert (Hh : 5 <= rect_height (mkRect 0 0 20 10)) by (simpl; lia).
  split; [split; assumption |].
  exact (proj2 (proj2 (PaintButton_gradient (SkScalar:=Q) kPressed
                         (mkRect 0 0 20 10)
                         (mkButton 0xFFDDDDDD true false false) Hw Hh))).
Defined.

(** X14 at an input: an inner spin button on a 15 by 9 rectangle issues
    eight calls. *)
Lemma PaintInnerSpinButton_halves_geometry_witness :
  0 <= rect_height (mkRect 0 0 15 9)
  /\ length (PaintInnerSpinButton (SkScalar:=Q) kNormal (mkRect 0 0 15 9)
               (mkInnerSpin false true)) = 8%nat.
Proof.
  assert (Hh : 0 <= rect_height (mkRect 0 0 15 9)) by (simpl; lia).
  split; [exact Hh |].
  exact (proj1 (PaintInnerSpinButton_halves_geometry (SkScalar:=Q) kNormal
                  (mkRect 0 0 15 9) (mkInnerSpin false true) Hh)).
Defined.

(** X18 at an input: the outline of the up arrow of the default size, 15 by
    14. *)
Lemma arrow_outline_within_half_pixel_witness :
  (2 <= rect_width (mkRect 0 0 15 14) /\ 2 <= rect_height (mkRect 0 0 15 14))
  /\ Forall (fun p =>
               (0 - 0.5 <= fst p /\ fst p <= 15 + 0.5
                /\ 0 - 0.5 <= snd p /\ snd p <= 14 + 0.5)%Q)
            (path_points (arrow_outline (mkRect 0 0 15 14) kScrollbarUpArrow)).
Proof.
  assert (Hw : 2 <= rect_width (mkRect 0 0 15 14)) by (simpl; lia).
  assert (Hh : 2 <= rect_height (mkRect 0 0 15 14)) by (simpl; lia).
  split; [split; assumption |].
  exact (arrow_outline_within_half_pixel (mkRect 0 0 15 14) kScrollbarUpArrow
           Hw Hh).
Defined.

End FurtherRuns.
